(** * Company details manager: record, codecs and console editor

    A shallow embedding of [company details/company_manager.py] together
    with the parts of the Python runtime it calls ([float], [repr],
    [json], [configparser], [csv]), and the properties of the
    specification stated against that embedding.

    Conventions.
    - A Python [str] is a list of Unicode code points ([pystr]).
    - A Python [float] is an IEEE 754 binary64 value ([spec_float] with
      precision 53 and maximal exponent 1024).
    - A Python [dict] is an association list with unique keys kept in
      insertion order ([dict]).
    - The files of the base directory are a finite map from file name to
      the text held by the file, as Python's text layer presents it. *)

From Stdlib Require Import ZArith NArith Lia Ascii String.
From Stdlib Require Import Floats.PrimFloat Floats.SpecFloat Floats.FloatOps.
From stdpp Require Import prelude gmap strings.

(** ** Text *)

Definition pystr := list N.

(** A literal of the source, as the list of its code points. *)
Fixpoint str (s : string) : pystr :=
  match s with
  | EmptyString => []
  | String a s' => N_of_ascii a :: str s'
  end.
Arguments str _%_string.

(** Python's truth value of a string: the empty string is falsy. *)
Definition truthy (s : pystr) : bool :=
  match s with [] => false | _ => true end.

(** [a or b] on strings. *)
Definition str_or (a b : pystr) : pystr := if truthy a then a else b.

Definition is_space (c : N) : bool := ((9 <=? c) && (c <=? 13) || (c =? 32))%N.
Definition is_digit (c : N) : bool := ((48 <=? c) && (c <=? 57))%N.
Definition lower (c : N) : N :=
  if ((65 <=? c) && (c <=? 90))%N then (c + 32)%N else c.

Fixpoint lstrip (s : pystr) : pystr :=
  match s with
  | c :: s' => if is_space c then lstrip s' else s
  | [] => []
  end.
Definition rstrip (s : pystr) : pystr := reverse (lstrip (reverse s)).
Definition strip (s : pystr) : pystr := rstrip (lstrip s).

(** [s.startswith(p)] and [p in s]. *)
Fixpoint startswith (p s : pystr) : bool :=
  match p, s with
  | [], _ => true
  | a :: p', b :: s' => (a =? b)%N && startswith p' s'
  | _ :: _, [] => false
  end.

Fixpoint contains (p s : pystr) : bool :=
  startswith p s || match s with [] => false | _ :: s' => contains p s' end.

(** ** Dictionaries *)

Definition dict (V : Type) := list (pystr * V).

Fixpoint dict_get {V} (k : pystr) (d : dict V) : option V :=
  match d with
  | [] => None
  | (k', v) :: d' => if decide (k = k') then Some v else dict_get k d'
  end.

(** [d[k] = v]: an existing key keeps its position. *)
Fixpoint dict_set {V} (k : pystr) (v : V) (d : dict V) : dict V :=
  match d with
  | [] => [(k, v)]
  | (k', v') :: d' =>
      if decide (k = k') then (k, v) :: d' else (k', v') :: dict_set k v d'
  end.

(** [dict(pairs)] and [d.update(pairs)]. *)
Definition dict_update {V} (d : dict V) (l : list (pystr * V)) : dict V :=
  foldl (fun acc kv => dict_set kv.1 kv.2 acc) d l.
Definition dict_of_pairs {V} (l : list (pystr * V)) : dict V := dict_update [] l.

Definition dict_keys {V} (d : dict V) : list pystr := d.*1.

(** ** Floats: [float(s)] and [repr(x)] *)

Definition pyfloat := spec_float.

#[global] Instance spec_float_eq_dec : EqDecision spec_float.
Proof. solve_decision. Defined.

(** The double nearest to [±M * 10^E] (ties to even; overflow gives an
    infinity), as [strtod] computes it. *)
Definition dec_to_float (neg : bool) (M E : Z) : pyfloat :=
  match M with
  | Zpos m =>
      if (0 <=? E)%Z
      then binary_normalize 53 1024
             (if neg then Z.opp (M * 10 ^ E) else M * 10 ^ E)%Z 0 false
      else SFdiv 53 1024 (S754_finite neg m 0)
             (S754_finite false (Z.to_pos (10 ^ (- E))) 0)
  | _ => S754_zero neg
  end.

(** Underscores are accepted between two digits only and are removed. *)
Fixpoint strip_underscores (prev : N) (s : pystr) : option pystr :=
  match s with
  | [] => if (prev =? 95)%N then None else Some []
  | c :: s' =>
      if (c =? 95)%N then
        if is_digit prev then strip_underscores c s' else None
      else if (prev =? 95)%N && negb (is_digit c) then None
      else cons c <$> strip_underscores c s'
  end.

Fixpoint span_digits (s : pystr) : list N * pystr :=
  match s with
  | c :: s' =>
      if is_digit c then let '(d, r) := span_digits s' in (c :: d, r)
      else ([], s)
  | [] => ([], [])
  end.

Definition digits_value (ds : list N) : Z :=
  foldl (fun acc c => acc * 10 + (Z.of_N c - 48))%Z 0%Z ds.

Definition parse_sign (s : pystr) : bool * pystr :=
  match s with
  | c :: r => if (c =? 45)%N then (true, r)
              else if (c =? 43)%N then (false, r) else (false, s)
  | [] => (false, [])
  end.

(** The exponent part: [e] or [E], an optional sign and at least one
    digit; without a digit nothing is consumed. *)
Definition parse_exponent (s : pystr) : Z * pystr :=
  match s with
  | c :: r =>
      if ((c =? 101) || (c =? 69))%N then
        let '(neg, r1) := parse_sign r in
        let '(ds, r2) := span_digits r1 in
        match ds with
        | [] => (0%Z, s)
        | _ => ((if neg then - digits_value ds else digits_value ds)%Z, r2)
        end
      else (0%Z, s)
  | [] => (0%Z, [])
  end.

(** [strtod] on the whole string: sign, digits with an optional point (at
    least one digit), optional exponent. *)
Definition parse_decimal (s : pystr) : option pyfloat :=
  let '(neg, s1) := parse_sign s in
  let '(ip, s2) := span_digits s1 in
  let '(fp, s3) :=
    match s2 with
    | c :: r => if (c =? 46)%N then span_digits r else ([], s2)
    | [] => ([], [])
    end in
  match ip ++ fp with
  | [] => None
  | ds =>
      let '(e, s4) := parse_exponent s3 in
      match s4 with
      | [] => Some (dec_to_float neg (digits_value ds) (e - Z.of_nat (length fp)))
      | _ => None
      end
  end.

(** [inf], [infinity] and [nan] with an optional sign, in any case. *)
Definition parse_inf_or_nan (s : pystr) : option pyfloat :=
  let '(neg, r) := parse_sign s in
  let w := lower <$> r in
  if bool_decide (w = str "inf") || bool_decide (w = str "infinity")
  then Some (S754_infinity neg)
  else if bool_decide (w = str "nan") then Some S754_nan
  else None.

(** Python's [float(s)] on a string; [None] stands for [ValueError].
    Leading and trailing ASCII white space is stripped.  Code points from
    127 on are rejected: CPython would first map Unicode decimal digits and
    Unicode spaces to their ASCII counterparts, which is not modelled. *)
Definition float_of_str (s : pystr) : option pyfloat :=
  if existsb (fun c => 127 <=? c)%N s then None else
  match strip_underscores 0 (strip s) with
  | None => None
  | Some t =>
      match parse_decimal t with
      | Some x => Some x
      | None => parse_inf_or_nan t
      end
  end.

(** Decimal digits of a non-negative integer. *)
Fixpoint Z_digits_aux (fuel : nat) (n : Z) (acc : list N) : list N :=
  match fuel with
  | O => acc
  | S f =>
      let acc' := (Z.to_N (n mod 10) + 48)%N :: acc in
      if (n <? 10)%Z then acc' else Z_digits_aux f (n / 10)%Z acc'
  end.
Definition Z_digits (n : Z) : list N :=
  Z_digits_aux (S (Z.to_nat (Z.log2 n))) n [].

Fixpoint lstrip_zeros (ds : list N) : list N :=
  match ds with
  | c :: r => if (c =? 48)%N then lstrip_zeros r else ds
  | [] => []
  end.
Definition rstrip_zeros (ds : list N) : list N :=
  reverse (lstrip_zeros (reverse ds)).

(** The exponent of [repr]: a sign and at least two digits. *)
Definition exp_str (e : Z) : pystr :=
  let ds := Z_digits (Z.abs e) in
  (if (e <? 0)%Z then [45%N] else [43%N]) ++
  (match ds with [_] => [48%N] | _ => [] end) ++ ds.

(** [repr] layout of the digit string [ds] read as [0.ds * 10^decpt]:
    exponent notation when [decpt <= -4] or [decpt > 16]. *)
Definition repr_digits (neg : bool) (ds : list N) (decpt : Z) : pystr :=
  let n := Z.of_nat (length ds) in
  (if neg then [45%N] else []) ++
  (if ((decpt <=? -4) || (16 <? decpt))%Z then
     match ds with
     | [] => []
     | d :: rest =>
         [d] ++ (match rest with [] => [] | _ => 46%N :: rest end)
             ++ [101%N] ++ exp_str (decpt - 1)
     end
   else if (decpt <=? 0)%Z then
     str "0." ++ replicate (Z.to_nat (- decpt)) 48%N ++ ds
   else if (n <=? decpt)%Z then
     ds ++ replicate (Z.to_nat (decpt - n)) 48%N ++ str ".0"
   else take (Z.to_nat decpt) ds ++ [46%N] ++ drop (Z.to_nat decpt) ds).

(** The position of the decimal point of [n / d > 0]:
    [10^(decpt-1) <= n/d < 10^decpt]. *)
Fixpoint decpt_up (fuel : nat) (n d k : Z) : Z :=
  match fuel with
  | O => k
  | S f => if (n <? d * 10 ^ k)%Z then k else decpt_up f n d (k + 1)%Z
  end.
Fixpoint decpt_down (fuel : nat) (n d k : Z) : Z :=
  match fuel with
  | O => k
  | S f => if (d <=? n * 10 ^ (1 - k))%Z then k else decpt_down f n d (k - 1)%Z
  end.
Definition decpt_of (n d : Z) : Z :=
  if (d <=? n)%Z then decpt_up 400 n d 1 else decpt_down 400 n d 0.

(** The text of the decimal [c * 10^(-q)]. *)
Definition candidate (neg : bool) (c q : Z) : pystr :=
  let ds := Z_digits c in
  repr_digits neg (rstrip_zeros ds) (Z.of_nat (length ds) - q).

(** The shortest digit string that [float] reads back as [x], and among
    the two decimals of that length around [x] the nearer one; [p] is the
    number of significant digits tried, up to 17. *)
Fixpoint shortest (fuel : nat) (p : Z) (x : pyfloat) (neg : bool)
    (n d decpt : Z) : pystr :=
  let q := (p - decpt)%Z in
  let '(n', d') := if (0 <=? q)%Z then (n * 10 ^ q, d)%Z
                   else (n, d * 10 ^ (- q))%Z in
  let lo := (n' / d')%Z in
  let r := (n' mod d')%Z in
  let slo := candidate neg lo q in
  let shi := candidate neg (lo + 1) q in
  let oklo := bool_decide (float_of_str slo = Some x) in
  let okhi := bool_decide (float_of_str shi = Some x) in
  let pick_lo := ((2 * r <? d') || ((2 * r =? d') && Z.even lo))%Z in
  if oklo && (negb okhi || pick_lo) then slo
  else if okhi then shi
  else match fuel with
       | O => if pick_lo then slo else shi
       | S f => shortest f (p + 1)%Z x neg n d decpt
       end.

(** Python's [repr(x)], which is also [str(x)] and [format(x, '')]. *)
Definition float_repr (x : pyfloat) : pystr :=
  match x with
  | S754_zero s => if s then str "-0.0" else str "0.0"
  | S754_infinity s => if s then str "-inf" else str "inf"
  | S754_nan => str "nan"
  | S754_finite s m e =>
      let '(n, d) := if (0 <=? e)%Z then (Zpos m * 2 ^ e, 1)%Z
                     else (Zpos m, 2 ^ (- e))%Z in
      shortest 16 1 x s n d (decpt_of n d)
  end.

(** ** The company record

    [self.company_data]: a dictionary that always holds the same
    twenty-four keys; [default_tax_rate] is the only number. *)

Record CompanyData := {
  name : pystr;
  registration_number : pystr;
  type : pystr;
  street : pystr;
  suburb : pystr;
  province : pystr;
  postal_code : pystr;
  country : pystr;
  email : pystr;
  phone : pystr;
  whatsapp : pystr;
  website : pystr;
  account_name : pystr;
  bank : pystr;
  branch_code : pystr;
  account_number : pystr;
  account_type : pystr;
  swift_code : pystr;
  vat_number : pystr;
  tax_reference : pystr;
  default_tax_rate : pyfloat;
  industry : pystr;
  established_year : pystr;
  description : pystr
}.

(** The float literal [15.0]. *)
Definition float_15 : pyfloat := S754_finite false 8444249301319680 (-49).

(** The record built by [__init__]. *)
Definition company_data : CompanyData := {|
  name := str "JK WINNERS INVESTMENT(PTY)Ltd";
  registration_number := str "2013/047375/07";
  type := str "Private Company";
  street := str "22 Sloane Street";
  suburb := str "Bryanston";
  province := str "GAUTENG";
  postal_code := str "1619";
  country := str "South Africa";
  email := str "info@jkwinnersinvestment.co.za";
  phone := str "010 085 3553";
  whatsapp := str "0839887569";
  website := str "";
  account_name := str "JK Winners Investment (Pty)Ltd";
  bank := str "FNB";
  branch_code := str "250655";
  account_number := str "63151527133";
  account_type := str "Business";
  swift_code := str "";
  vat_number := str "";
  tax_reference := str "";
  default_tax_rate := float_15;
  industry := str "Investment";
  established_year := str "2013";
  description := str "Investment Company"
|}.

(** Field updates used by the editor and by the statements below. *)
Definition set_vat_number (v : pystr) (d : CompanyData) : CompanyData :=
  {| name := name d; registration_number := registration_number d;
     type := type d; street := street d; suburb := suburb d;
     province := province d; postal_code := postal_code d;
     country := country d; email := email d; phone := phone d;
     whatsapp := whatsapp d; website := website d;
     account_name := account_name d; bank := bank d;
     branch_code := branch_code d; account_number := account_number d;
     account_type := account_type d; swift_code := swift_code d;
     vat_number := v; tax_reference := tax_reference d;
     default_tax_rate := default_tax_rate d; industry := industry d;
     established_year := established_year d; description := description d |}.

Definition set_tax_reference (v : pystr) (d : CompanyData) : CompanyData :=
  {| name := name d; registration_number := registration_number d;
     type := type d; street := street d; suburb := suburb d;
     province := province d; postal_code := postal_code d;
     country := country d; email := email d; phone := phone d;
     whatsapp := whatsapp d; website := website d;
     account_name := account_name d; bank := bank d;
     branch_code := branch_code d; account_number := account_number d;
     account_type := account_type d; swift_code := swift_code d;
     vat_number := vat_number d; tax_reference := v;
     default_tax_rate := default_tax_rate d; industry := industry d;
     established_year := established_year d; description := description d |}.

Definition set_default_tax_rate (x : pyfloat) (d : CompanyData) : CompanyData :=
  {| name := name d; registration_number := registration_number d;
     type := type d; street := street d; suburb := suburb d;
     province := province d; postal_code := postal_code d;
     country := country d; email := email d; phone := phone d;
     whatsapp := whatsapp d; website := website d;
     account_name := account_name d; bank := bank d;
     branch_code := branch_code d; account_number := account_number d;
     account_type := account_type d; swift_code := swift_code d;
     vat_number := vat_number d; tax_reference := tax_reference d;
     default_tax_rate := x; industry := industry d;
     established_year := established_year d; description := description d |}.

Definition set_swift_code (v : pystr) (d : CompanyData) : CompanyData :=
  {| name := name d; registration_number := registration_number d;
     type := type d; street := street d; suburb := suburb d;
     province := province d; postal_code := postal_code d;
     country := country d; email := email d; phone := phone d;
     whatsapp := whatsapp d; website := website d;
     account_name := account_name d; bank := bank d;
     branch_code := branch_code d; account_number := account_number d;
     account_type := account_type d; swift_code := v;
     vat_number := vat_number d; tax_reference := tax_reference d;
     default_tax_rate := default_tax_rate d; industry := industry d;
     established_year := established_year d; description := description d |}.

Definition set_description (v : pystr) (d : CompanyData) : CompanyData :=
  {| name := name d; registration_number := registration_number d;
     type := type d; street := street d; suburb := suburb d;
     province := province d; postal_code := postal_code d;
     country := country d; email := email d; phone := phone d;
     whatsapp := whatsapp d; website := website d;
     account_name := account_name d; bank := bank d;
     branch_code := branch_code d; account_number := account_number d;
     account_type := account_type d; swift_code := swift_code d;
     vat_number := vat_number d; tax_reference := tax_reference d;
     default_tax_rate := default_tax_rate d; industry := industry d;
     established_year := established_year d; description := v |}.

(** [f"{street}, {suburb}, {province} {postal_code}"] *)
Definition full_address (d : CompanyData) : pystr :=
  street d ++ str ", " ++ suburb d ++ str ", " ++ province d ++ str " "
    ++ postal_code d.

(** ** Python values and the [json] module *)

(** The objects [json.load] builds and [json.dump] accepts. *)
#[warnings="-register-all"]
Inductive value :=
| VNone
| VBool (b : bool)
| VInt (z : Z)
| VFloat (x : pyfloat)
| VStr (s : pystr)
| VList (l : list value)
| VDict (d : list (pystr * value)).

(** [sep.join(l)] *)
Definition join (sep : pystr) (l : list pystr) : pystr :=
  match l with
  | [] => []
  | x :: r => x ++ concat (map (app sep) r)
  end.

Definition hex_digit (n : N) : N :=
  (if n <? 10 then 48 + n else 87 + n)%N.

(** [\uXXXX], four lower-case hexadecimal digits. *)
Definition u_escape (c : N) : pystr :=
  [92; 117; hex_digit (c / 4096 mod 16); hex_digit (c / 256 mod 16);
   hex_digit (c / 16 mod 16); hex_digit (c mod 16)]%N.

(** The short escapes of [ESCAPE_DCT]. *)
Definition short_escape (c : N) : option N :=
  if (c =? 92)%N then Some 92%N
  else if (c =? 34)%N then Some 34%N
  else if (c =? 8)%N then Some 98%N
  else if (c =? 12)%N then Some 102%N
  else if (c =? 10)%N then Some 110%N
  else if (c =? 13)%N then Some 114%N
  else if (c =? 9)%N then Some 116%N
  else None.

(** One character of a string under [ensure_ascii=False]: the quote, the
    backslash and the control characters below 32 are escaped. *)
Definition escape_char (c : N) : pystr :=
  match short_escape c with
  | Some e => [92%N; e]
  | None => if (c <? 32)%N then u_escape c else [c]
  end.

(** One character under [ensure_ascii=True]: everything outside
    [' '..'~'] is escaped, with a surrogate pair above the basic plane. *)
Definition escape_char_ascii (c : N) : pystr :=
  match short_escape c with
  | Some e => [92%N; e]
  | None =>
      if ((32 <=? c) && (c <=? 126))%N then [c]
      else if (c <? 65536)%N then u_escape c
      else let n := (c - 65536)%N in
           u_escape (N.lor 55296 (N.land (N.shiftr n 10) 1023))
             ++ u_escape (N.lor 56320 (N.land n 1023))
  end.

Definition encode_basestring (ensure_ascii : bool) (s : pystr) : pystr :=
  [34%N] ++ concat (map (if ensure_ascii then escape_char_ascii else escape_char) s)
         ++ [34%N].

(** [int.__repr__] *)
Definition int_repr (z : Z) : pystr :=
  (if (z <? 0)%Z then [45%N] else []) ++ Z_digits (Z.abs z).

(** [floatstr] of the encoder, with [allow_nan=True]. *)
Definition floatstr (x : pyfloat) : pystr :=
  match x with
  | S754_nan => str "NaN"
  | S754_infinity s => if s then str "-Infinity" else str "Infinity"
  | _ => float_repr x
  end.

(** A line break followed by [indent * level] spaces, with [indent=2]. *)
Definition newline_indent (lvl : nat) : pystr :=
  10%N :: replicate (2 * lvl) 32%N.

(** [json.dumps(v, indent=2, ensure_ascii=...)]; [lvl] is the current
    indentation level. *)
Fixpoint dumps_at (ensure_ascii : bool) (lvl : nat) (v : value) : pystr :=
  match v with
  | VNone => str "null"
  | VBool b => if b then str "true" else str "false"
  | VInt z => int_repr z
  | VFloat x => floatstr x
  | VStr s => encode_basestring ensure_ascii s
  | VList l =>
      match l with
      | [] => str "[]"
      | _ => [91%N] ++ newline_indent (S lvl)
             ++ join (44%N :: newline_indent (S lvl))
                     (map (dumps_at ensure_ascii (S lvl)) l)
             ++ newline_indent lvl ++ [93%N]
      end
  | VDict d =>
      match d with
      | [] => str "{}"
      | _ => [123%N] ++ newline_indent (S lvl)
             ++ join (44%N :: newline_indent (S lvl))
                     (map (fun kv => encode_basestring ensure_ascii kv.1
                                       ++ str ": "
                                       ++ dumps_at ensure_ascii (S lvl) kv.2) d)
             ++ newline_indent lvl ++ [125%N]
      end
  end.

Definition dumps (ensure_ascii : bool) (v : value) : pystr :=
  dumps_at ensure_ascii 0 v.

(** [structured_data] of [write_json]. *)
Definition structured_company (data : CompanyData) : value :=
  VDict [
    (str "name", VStr (name data));
    (str "registration_number", VStr (registration_number data));
    (str "type", VStr (type data));
    (str "address", VDict [
       (str "street", VStr (street data));
       (str "suburb", VStr (suburb data));
       (str "province", VStr (province data));
       (str "postal_code", VStr (postal_code data));
       (str "country", VStr (country data));
       (str "full_address", VStr (full_address data))]);
    (str "contact", VDict [
       (str "email", VStr (email data));
       (str "phone", VStr (phone data));
       (str "whatsapp", VStr (whatsapp data));
       (str "website", VStr (website data))]);
    (str "banking", VDict [
       (str "account_name", VStr (account_name data));
       (str "bank", VStr (bank data));
       (str "branch_code", VStr (branch_code data));
       (str "account_number", VStr (account_number data));
       (str "account_type", VStr (account_type data));
       (str "swift_code", VStr (swift_code data))]);
    (str "tax", VDict [
       (str "vat_number", VStr (vat_number data));
       (str "tax_reference", VStr (tax_reference data));
       (str "default_tax_rate", VFloat (default_tax_rate data))]);
    (str "business", VDict [
       (str "industry", VStr (industry data));
       (str "established_year", VStr (established_year data));
       (str "description", VStr (description data))])
  ].

Definition structured_data (data : CompanyData) : value :=
  VDict [(str "company", structured_company data)].

(** *** Decoding *)

Definition is_ws (c : N) : bool :=
  ((c =? 32) || (c =? 9) || (c =? 10) || (c =? 13))%N.

Fixpoint skip_ws (s : pystr) : pystr :=
  match s with
  | c :: r => if is_ws c then skip_ws r else s
  | [] => []
  end.

Definition hex_val (c : N) : option N :=
  if is_digit c then Some (c - 48)%N
  else if ((97 <=? c) && (c <=? 102))%N then Some (c - 87)%N
  else if ((65 <=? c) && (c <=? 70))%N then Some (c - 55)%N
  else None.

Definition hex4 (a b c d : N) : option N :=
  ha ← hex_val a; hb ← hex_val b; hc ← hex_val c; hd ← hex_val d;
  Some (((ha * 16 + hb) * 16 + hc) * 16 + hd)%N.

Definition is_high_surrogate (u : N) : bool := ((55296 <=? u) && (u <=? 56319))%N.
Definition is_low_surrogate (u : N) : bool := ((56320 <=? u) && (u <=? 57343))%N.
Definition join_surrogates (u u2 : N) : N :=
  (65536 + (N.lor (N.shiftl (u - 55296) 10) (u2 - 56320)))%N.

(** The character a backslash escape other than [\u] stands for. *)
Definition unescape (e : N) : option N :=
  if (e =? 34)%N then Some 34%N
  else if (e =? 92)%N then Some 92%N
  else if (e =? 47)%N then Some 47%N
  else if (e =? 98)%N then Some 8%N
  else if (e =? 102)%N then Some 12%N
  else if (e =? 110)%N then Some 10%N
  else if (e =? 114)%N then Some 13%N
  else if (e =? 116)%N then Some 9%N
  else None.

(** [scanstring] in strict mode, from the character after the opening
    quote: the decoded string and the text after the closing quote. *)
Fixpoint scanstring (s : pystr) : option (pystr * pystr) :=
  match s with
  | [] => None
  | c :: r =>
      if (c =? 34)%N then Some ([], r)
      else if (c =? 92)%N then
        match r with
        | [] => None
        | e :: r1 =>
            if (e =? 117)%N then
              match r1 with
              | a :: b :: c' :: d :: r2 =>
                  match hex4 a b c' d with
                  | None => None
                  | Some u =>
                      let lone := prod_map (cons u) id <$> scanstring r2 in
                      if is_high_surrogate u then
                        match r2 with
                        | b1 :: b2 :: a2 :: b3 :: c2 :: d2 :: r3 =>
                            if ((b1 =? 92) && (b2 =? 117))%N then
                              match hex4 a2 b3 c2 d2 with
                              | None => None
                              | Some u2 =>
                                  if is_low_surrogate u2
                                  then prod_map (cons (join_surrogates u u2)) id
                                         <$> scanstring r3
                                  else lone
                              end
                            else lone
                        | _ => lone
                        end
                      else lone
                  end
              | _ => None
              end
            else
              match unescape e with
              | Some x => prod_map (cons x) id <$> scanstring r1
              | None => None
              end
        end
      else if (c <? 32)%N then None
      else prod_map (cons c) id <$> scanstring r
  end.

(** The integer part of the number pattern: an optional minus sign, then
    a single zero or a digit from 1 to 9 followed by digits.  Each part
    returns the text it matched and the text after it. *)
Definition scan_int (s : pystr) : option (pystr * pystr) :=
  let '(sg, s1) :=
    match s with
    | c :: r => if (c =? 45)%N then ([c], r) else ([], s)
    | [] => ([], [])
    end in
  match s1 with
  | [] => None
  | c :: r =>
      if (c =? 48)%N then Some (sg ++ [c], r)
      else if is_digit c then
        let '(ds, r') := span_digits r in Some (sg ++ c :: ds, r')
      else None
  end.

(** The fraction: a point followed by at least one digit, or nothing. *)
Definition scan_frac (s : pystr) : pystr * pystr :=
  match s with
  | d :: r =>
      if (d =? 46)%N then
        match span_digits r with
        | ([], _) => ([], s)
        | (ds, r') => (d :: ds, r')
        end
      else ([], s)
  | [] => ([], [])
  end.

(** The exponent: [e] or [E], an optional sign and at least one digit,
    or nothing. *)
Definition scan_exp (s : pystr) : pystr * pystr :=
  match s with
  | e :: r =>
      if ((e =? 101) || (e =? 69))%N then
        let '(esg, r1) :=
          match r with
          | g :: r' => if ((g =? 45) || (g =? 43))%N then ([g], r') else ([], r)
          | [] => ([], [])
          end in
        match span_digits r1 with
        | ([], _) => ([], s)
        | (ds, r2) => (e :: esg ++ ds, r2)
        end
      else ([], s)
  | [] => ([], [])
  end.

(** [int(text)] on the integer part. *)
Definition int_of_str (s : pystr) : Z :=
  match s with
  | c :: r => if (c =? 45)%N then (- digits_value r)%Z else digits_value s
  | [] => 0%Z
  end.

(** The number pattern of the scanner: with neither fraction nor
    exponent the matched text is read by [int], otherwise by [float]. *)
Definition match_number (s : pystr) : option (value * pystr) :=
  match scan_int s with
  | None => None
  | Some (ip, s2) =>
      let '(fp, s3) := scan_frac s2 in
      let '(ep, s4) := scan_exp s3 in
      match fp ++ ep with
      | [] => Some (VInt (int_of_str ip), s4)
      | _ => (fun x => (VFloat x, s4)) <$> float_of_str (ip ++ fp ++ ep)
      end
  end.

(** The constants of the scanner. *)
Definition match_constant (s : pystr) : option (value * pystr) :=
  if startswith (str "null") s then Some (VNone, drop 4 s)
  else if startswith (str "true") s then Some (VBool true, drop 4 s)
  else if startswith (str "false") s then Some (VBool false, drop 5 s)
  else if startswith (str "NaN") s then Some (VFloat S754_nan, drop 3 s)
  else if startswith (str "Infinity") s then Some (VFloat (S754_infinity false), drop 8 s)
  else if startswith (str "-Infinity") s then Some (VFloat (S754_infinity true), drop 9 s)
  else None.

(** [scan_once]: one JSON value at the head of the text.  [parse_members]
    starts after the opening quote of a key, [parse_elems] at an array
    element.  The fuel bounds the nesting; the length of the text is
    always enough. *)
Fixpoint scan_once (fuel : nat) (s : pystr) : option (value * pystr) :=
  match fuel with
  | O => None
  | S f =>
      match s with
      | [] => None
      | c :: r =>
          if (c =? 34)%N then prod_map VStr id <$> scanstring r
          else if (c =? 123)%N then
            match skip_ws r with
            | c1 :: r1 =>
                if (c1 =? 125)%N then Some (VDict [], r1)
                else if (c1 =? 34)%N then
                  prod_map (fun l => VDict (dict_of_pairs l)) id <$> parse_members f r1
                else None
            | [] => None
            end
          else if (c =? 91)%N then
            match skip_ws r with
            | c1 :: r1 =>
                if (c1 =? 93)%N then Some (VList [], r1)
                else prod_map VList id <$> parse_elems f (c1 :: r1)
            | [] => None
            end
          else
            match match_constant s with
            | Some res => Some res
            | None => match_number s
            end
      end
  end
with parse_members (fuel : nat) (s : pystr) : option (list (pystr * value) * pystr) :=
  match fuel with
  | O => None
  | S f =>
      '(key, r) ← scanstring s;
      match skip_ws r with
      | c :: r1 =>
          if (c =? 58)%N then
            '(v, r2) ← scan_once f (skip_ws r1);
            match skip_ws r2 with
            | c2 :: r3 =>
                if (c2 =? 125)%N then Some ([(key, v)], r3)
                else if (c2 =? 44)%N then
                  match skip_ws r3 with
                  | c3 :: r4 =>
                      if (c3 =? 34)%N then
                        prod_map (cons (key, v)) id <$> parse_members f r4
                      else None
                  | [] => None
                  end
                else None
            | [] => None
            end
          else None
      | [] => None
      end
  end
with parse_elems (fuel : nat) (s : pystr) : option (list value * pystr) :=
  match fuel with
  | O => None
  | S f =>
      '(v, r) ← scan_once f s;
      match skip_ws r with
      | c :: r1 =>
          if (c =? 93)%N then Some ([v], r1)
          else if (c =? 44)%N then
            prod_map (cons v) id <$> parse_elems f (skip_ws r1)
          else None
      | [] => None
      end
  end.

(** [json.loads]: [None] stands for the exception raised on a text that
    is not a JSON document. *)
Definition loads (s : pystr) : option value :=
  if startswith [65279%N] s then None
  else match scan_once (S (length s)) (skip_ws s) with
       | Some (v, r) => match skip_ws r with [] => Some v | _ => None end
       | None => None
       end.

(** ** The interpreter: exceptions, console and files *)

Inductive exn :=
| FileNotFoundError
| JSONDecodeError
| KeyError (k : pystr)
| TypeError
| ValueError
| EOFError
| ConfigParserError.

Inductive result (A : Type) :=
| Ok (a : A)
| Raise (e : exn).
Arguments Ok {A} a.
Arguments Raise {A} e.

(** What reaches the console.  The text of an exception inside a message
    is not modelled: the message keeps the exception itself. *)
Inductive line :=
| Line (s : pystr)
| Prompt (s : pystr)
| ExnLine (prefix : pystr) (e : exn)
| PathLine (prefix : pystr) (file : string).

(** The manager object ([self.company_data]), the files of the base
    directory, the lines still to be typed and the console output. *)
Record world := World {
  w_company_data : CompanyData;
  w_files : gmap string pystr;
  w_stdin : list pystr;
  w_stdout : list line
}.

Definition Py (A : Type) : Type := world -> result A * world.

#[global] Instance Py_ret : MRet Py := fun A a w => (Ok a, w).
#[global] Instance Py_bind : MBind Py := fun A B f m w =>
  match m w with
  | (Ok a, w') => f a w'
  | (Raise e, w') => (Raise e, w')
  end.

Definition raise {A} (e : exn) : Py A := fun w => (Raise e, w).

Definition lift {A} (r : result A) : Py A := fun w => (r, w).

(** [try: m except ... as e: h e] *)
Definition try_except {A} (m : Py A) (h : exn -> Py A) : Py A := fun w =>
  match m w with
  | (Raise e, w') => h e w'
  | r => r
  end.

Definition print (l : line) : Py unit := fun w =>
  (Ok (), World (w_company_data w) (w_files w) (w_stdin w) (w_stdout w ++ [l])).

(** [input(prompt)]: the prompt is written, then one line is read. *)
Definition input (prompt : pystr) : Py pystr := fun w =>
  let out := w_stdout w ++ [Prompt prompt] in
  match w_stdin w with
  | [] => (Raise EOFError, World (w_company_data w) (w_files w) [] out)
  | x :: r => (Ok x, World (w_company_data w) (w_files w) r out)
  end.

(** [with open(path, 'w') as f: f.write(text)] *)
Definition open_write (file : string) (text : pystr) : Py unit := fun w =>
  (Ok (), World (w_company_data w) (<[file := text]> (w_files w)) (w_stdin w)
            (w_stdout w)).

(** [with open(path, 'r') as f: f.read()] *)
Definition open_read (file : string) : Py pystr := fun w =>
  match w_files w !! file with
  | Some text => (Ok text, w)
  | None => (Raise FileNotFoundError, w)
  end.

Definition get_company_data : Py CompanyData := fun w => (Ok (w_company_data w), w).
Definition put_company_data (d : CompanyData) : Py unit := fun w =>
  (Ok (), World d (w_files w) (w_stdin w) (w_stdout w)).

(** [if data is None: data = self.company_data] *)
Definition data_or_self (data : option CompanyData) : Py CompanyData :=
  match data with
  | Some d => mret d
  | None => get_company_data
  end.

(** ** JSON codec *)

(** [obj[key]] on a decoded document. *)
Definition getitem (obj : value) (key : pystr) : result value :=
  match obj with
  | VDict d =>
      match dict_get key d with
      | Some v => Ok v
      | None => Raise (KeyError key)
      end
  | _ => Raise TypeError
  end.

Definition json_file : string := "company_details.json".

Definition write_json (data : option CompanyData) : Py unit :=
  data ← data_or_self data;
  open_write json_file (dumps false (structured_data data)).

(** The returned object is [data["company"]], or [None] ([VNone]) after
    an error was reported. *)
Definition read_json : Py value :=
  try_except
    (text ← open_read json_file;
     match loads text with
     | None => raise JSONDecodeError
     | Some doc => lift (getitem doc (str "company"))
     end)
    (fun e =>
       match e with
       | FileNotFoundError =>
           print (PathLine (str "File not found: ") json_file);; mret VNone
       | _ => print (ExnLine (str "Error reading JSON: ") e);; mret VNone
       end).

(** ** INI codec: the [configparser] module *)

#[global] Instance result_ret : MRet result := fun A a => Ok a.
#[global] Instance result_bind : MBind result := fun A B f m =>
  match m with
  | Ok a => f a
  | Raise e => Raise e
  end.
#[global] Instance result_fmap : FMap result := fun A B f m =>
  match m with
  | Ok a => Ok (f a)
  | Raise e => Raise e
  end.

(** [str.isspace] on one code point. *)
Definition py_isspace (c : N) : bool :=
  (((9 <=? c) && (c <=? 13)) || ((28 <=? c) && (c <=? 32)) || (c =? 133)
   || (c =? 160) || (c =? 5760) || ((8192 <=? c) && (c <=? 8202))
   || (c =? 8232) || (c =? 8233) || (c =? 8239) || (c =? 8287)
   || (c =? 12288))%N.

Fixpoint py_lstrip (s : pystr) : pystr :=
  match s with
  | c :: s' => if py_isspace c then py_lstrip s' else s
  | [] => []
  end.
Definition py_rstrip (s : pystr) : pystr := reverse (py_lstrip (reverse s)).
Definition py_strip (s : pystr) : pystr := py_rstrip (py_lstrip s).

(** [optionxform]: [str.lower], modelled on the ASCII letters. *)
Definition optionxform (s : pystr) : pystr := lower <$> s.

(** The parser object: [_defaults] and [_sections]. *)
Record config := Config {
  cfg_defaults : dict pystr;
  cfg_sections : dict (dict pystr)
}.

Definition new_config : config := Config [] [].
Definition DEFAULTSECT : pystr := str "DEFAULT".

(** [value.replace('%%', '')] *)
Fixpoint remove_double_percent (s : pystr) : pystr :=
  match s with
  | c :: r =>
      match r with
      | c2 :: r2 =>
          if ((c =? 37) && (c2 =? 37))%N then remove_double_percent r2
          else c :: remove_double_percent r
      | [] => [c]
      end
  | [] => []
  end.

Fixpoint span_key (s : pystr) : pystr * pystr :=
  match s with
  | c :: r =>
      if (c =? 41)%N then ([], s)
      else let '(k, r') := span_key r in (c :: k, r')
  | [] => ([], [])
  end.

(** A reference [%(name)s] at the head of the text: the name and the
    text after the reference. *)
Definition match_keycre (s : pystr) : option (pystr * pystr) :=
  match s with
  | a :: b :: r =>
      if ((a =? 37) && (b =? 40))%N then
        let '(k, r') := span_key r in
        match k, r' with
        | _ :: _, p :: q :: r'' =>
            if ((p =? 41) && (q =? 115))%N then Some (k, r'') else None
        | _, _ => None
        end
      else None
  | _ => None
  end.

(** [_KEYCRE.sub('', s)] *)
Fixpoint keycre_sub (fuel : nat) (s : pystr) : pystr :=
  match fuel with
  | O => s
  | S f =>
      match match_keycre s with
      | Some (_, r) => keycre_sub f r
      | None =>
          match s with
          | c :: r => c :: keycre_sub f r
          | [] => []
          end
      end
  end.

(** [BasicInterpolation.before_set]: a percent sign that is neither
    doubled nor the start of a reference is refused with [ValueError]. *)
Definition before_set (v : pystr) : result pystr :=
  let tmp := keycre_sub (length v) (remove_double_percent v) in
  if existsb (N.eqb 37) tmp then Raise ValueError else Ok v.

(** [parser.set(section, option, value)] *)
Definition config_set (section option value : pystr) (c : config) : result config :=
  v ← (if truthy value then before_set value else Ok value);
  if negb (truthy section) || bool_decide (section = DEFAULTSECT) then
    Ok (Config (dict_set (optionxform option) v (cfg_defaults c)) (cfg_sections c))
  else
    match dict_get section (cfg_sections c) with
    | None => Raise ConfigParserError
    | Some d =>
        Ok (Config (cfg_defaults c)
              (dict_set section (dict_set (optionxform option) v d) (cfg_sections c)))
    end.

Definition add_section (section : pystr) (c : config) : result config :=
  if bool_decide (section = DEFAULTSECT) then Raise ValueError
  else match dict_get section (cfg_sections c) with
       | Some _ => Raise ConfigParserError
       | None => Ok (Config (cfg_defaults c) (cfg_sections c ++ [(section, [])]))
       end.

(** The option loop of [read_dict]: [added] holds the option names seen
    so far; a repeated name is a [DuplicateOptionError]. *)
Fixpoint read_dict_keys (section : pystr) (keys : list (pystr * pystr))
    (added : list pystr) (c : config) : result config :=
  match keys with
  | [] => Ok c
  | (key, v) :: rest =>
      let key := optionxform key in
      if bool_decide (key ∈ added) then Raise ConfigParserError
      else c' ← config_set section key v c;
           read_dict_keys section rest (key :: added) c'
  end.

(** [read_dict({section: keys})]: the exception of [add_section] for an
    existing section is swallowed. *)
Definition read_dict (section : pystr) (keys : list (pystr * pystr))
    (c : config) : result config :=
  let c1 := match add_section section c with Ok c' => c' | Raise _ => c end in
  read_dict_keys section keys [] c1.

(** [config[section] = keys] *)
Definition config_setitem (section : pystr) (keys : list (pystr * pystr))
    (c : config) : result config :=
  let c0 :=
    if bool_decide (section = DEFAULTSECT) then Config [] (cfg_sections c)
    else match dict_get section (cfg_sections c) with
         | Some _ => Config (cfg_defaults c) (dict_set section [] (cfg_sections c))
         | None => c
         end in
  read_dict section keys c0.

(** [value.replace('\n', '\n\t')] *)
Definition replace_newline (s : pystr) : pystr :=
  concat (map (fun c => if (c =? 10)%N then [10; 9]%N else [c]) s).

Definition write_section (sect : pystr) (items : dict pystr) : pystr :=
  [91%N] ++ sect ++ [93; 10]%N
    ++ concat (map (fun kv => kv.1 ++ str " = " ++ replace_newline kv.2 ++ [10%N]) items)
    ++ [10%N].

(** [config.write(f)] *)
Definition config_write (c : config) : pystr :=
  (match cfg_defaults c with
   | [] => []
   | d => write_section DEFAULTSECT d
   end)
  ++ concat (map (fun sd => write_section sd.1 sd.2) (cfg_sections c)).

(** The six assignments [config['...'] = {...}] of [write_ini]. *)
Definition build_config (data : CompanyData) : result config :=
  config ← config_setitem (str "company") [
      (str "name", name data);
      (str "registration_number", registration_number data);
      (str "type", type data)] new_config;
  config ← config_setitem (str "address") [
      (str "street", street data);
      (str "suburb", suburb data);
      (str "province", province data);
      (str "postal_code", postal_code data);
      (str "country", country data);
      (str "full_address", full_address data)] config;
  config ← config_setitem (str "contact") [
      (str "email", email data);
      (str "phone", phone data);
      (str "whatsapp", whatsapp data);
      (str "website", website data)] config;
  config ← config_setitem (str "banking") [
      (str "account_name", account_name data);
      (str "bank", bank data);
      (str "branch_code", branch_code data);
      (str "account_number", account_number data);
      (str "account_type", account_type data);
      (str "swift_code", swift_code data)] config;
  config ← config_setitem (str "tax") [
      (str "vat_number", vat_number data);
      (str "tax_reference", tax_reference data);
      (str "default_tax_rate", float_repr (default_tax_rate data))] config;
  config_setitem (str "business") [
      (str "industry", industry data);
      (str "established_year", established_year data);
      (str "description", description data)] config.

Definition ini_file : string := "company_details.ini".

Definition write_ini (data : option CompanyData) : Py unit :=
  data ← data_or_self data;
  config ← lift (build_config data);
  open_write ini_file (config_write config).

(** *** Reading *)

(** The state of [_read]: option values are lists of lines until the
    end of the file; [rd_cursect] names the section being filled ([None]
    before the first header), [rd_optname] the option being continued
    (empty for none). *)
Record reader := Reader {
  rd_defaults : dict (list pystr);
  rd_sections : dict (dict (list pystr));
  rd_cursect : option pystr;
  rd_optname : pystr;
  rd_indent : nat;
  rd_added_sections : list pystr;
  rd_added_options : list (pystr * pystr);
  rd_error : bool
}.

Definition new_reader : reader := Reader [] [] None [] 0 [] [] false.

(** The lines of a text file, without their terminators. *)
Fixpoint split_lines (cur s : pystr) : list pystr :=
  match s with
  | [] => match cur with [] => [] | _ => [reverse cur] end
  | c :: r =>
      if (c =? 10)%N then reverse cur :: split_lines [] r
      else split_lines (c :: cur) r
  end.

Definition cursect_get (st : reader) (sect opt : pystr) : option (list pystr) :=
  if bool_decide (sect = DEFAULTSECT) then dict_get opt (rd_defaults st)
  else d ← dict_get sect (rd_sections st); dict_get opt d.

(** [cursect[opt] = v] *)
Definition cursect_set (st : reader) (sect opt : pystr) (v : list pystr)
    : dict (list pystr) * dict (dict (list pystr)) :=
  if bool_decide (sect = DEFAULTSECT)
  then (dict_set opt v (rd_defaults st), rd_sections st)
  else (rd_defaults st,
        dict_set sect (dict_set opt v (default [] (dict_get sect (rd_sections st))))
          (rd_sections st)).

(** [cursect[optname].append(v)] *)
Definition cursect_append (st : reader) (sect : pystr) (v : pystr) : reader :=
  let old := default [] (cursect_get st sect (rd_optname st)) in
  let '(d, s) := cursect_set st sect (rd_optname st) (old ++ [v]) in
  Reader d s (rd_cursect st) (rd_optname st) (rd_indent st)
    (rd_added_sections st) (rd_added_options st) (rd_error st).

(** The section pattern: an opening bracket, a non-empty header and the
    last closing bracket of the line. *)
Definition section_header (v : pystr) : option pystr :=
  match v with
  | c :: rest =>
      if (c =? 91)%N then
        match list_find (fun x => x = 93%N) (reverse rest) with
        | Some (k, _) =>
            let j := (length rest - 1 - k)%nat in
            if (j =? 0)%nat then None else Some (take j rest)
        | None => None
        end
      else None
  | [] => None
  end.

(** The option pattern: the text before the first [=] or [:] and the
    text after it. *)
Fixpoint span_option (s : pystr) : option (pystr * pystr) :=
  match s with
  | [] => None
  | c :: r =>
      if ((c =? 61) || (c =? 58))%N then Some ([], r)
      else prod_map (cons c) id <$> span_option r
  end.

Definition read_header (st : reader) (header : pystr) (indent : nat) : result reader :=
  if bool_decide (header ∈ dict_keys (rd_sections st)) then
    if bool_decide (header ∈ rd_added_sections st) then Raise ConfigParserError
    else Ok (Reader (rd_defaults st) (rd_sections st) (Some header) [] indent
               (header :: rd_added_sections st) (rd_added_options st) (rd_error st))
  else if bool_decide (header = DEFAULTSECT) then
    Ok (Reader (rd_defaults st) (rd_sections st) (Some header) [] indent
          (rd_added_sections st) (rd_added_options st) (rd_error st))
  else
    Ok (Reader (rd_defaults st) (rd_sections st ++ [(header, [])]) (Some header) []
          indent (header :: rd_added_sections st) (rd_added_options st) (rd_error st)).

Definition read_option (st : reader) (sect value : pystr) (indent : nat) : result reader :=
  match span_option value with
  | None =>
      Ok (Reader (rd_defaults st) (rd_sections st) (rd_cursect st) (rd_optname st)
            indent (rd_added_sections st) (rd_added_options st) true)
  | Some (o, v) =>
      let o := py_rstrip o in
      let optname := optionxform (py_rstrip o) in
      if bool_decide ((sect, optname) ∈ rd_added_options st) then Raise ConfigParserError
      else
        let '(d, s) := cursect_set st sect optname [py_strip v] in
        Ok (Reader d s (rd_cursect st) optname indent (rd_added_sections st)
              ((sect, optname) :: rd_added_options st)
              (rd_error st || negb (truthy o)))
  end.

(** One iteration of the loop of [_read], with the default settings:
    comment prefixes [#] and [;], no inline comments, empty lines allowed
    in values, strict. *)
Definition read_line (st : reader) (line : pystr) : result reader :=
  let stripped := py_strip line in
  let is_comment := startswith [35%N] stripped || startswith [59%N] stripped in
  let value := if is_comment then [] else stripped in
  let continuing := match rd_cursect st with Some _ => truthy (rd_optname st) | None => false end in
  match value with
  | [] =>
      match rd_cursect st with
      | Some sect =>
          if negb is_comment && truthy (rd_optname st)
          then Ok (cursect_append st sect [])
          else Ok st
      | None => Ok st
      end
  | _ =>
      let cur_indent := (length line - length (py_lstrip line))%nat in
      match rd_cursect st with
      | Some sect =>
          if truthy (rd_optname st) && (rd_indent st <? cur_indent)%nat
          then Ok (cursect_append st sect value)
          else match section_header value with
               | Some header => read_header st header cur_indent
               | None => read_option st sect value cur_indent
               end
      | None =>
          match section_header value with
          | Some header => read_header st header cur_indent
          | None => Raise ConfigParserError
          end
      end
  end.

Fixpoint read_lines (st : reader) (lines : list pystr) : result reader :=
  match lines with
  | [] => Ok st
  | l :: rest => st' ← read_line st l; read_lines st' rest
  end.

(** [_join_multiline_values] *)
Definition join_values (d : dict (list pystr)) : dict pystr :=
  map (fun kv => (kv.1, py_rstrip (join [10%N] kv.2))) d.

(** [_read] on the text of a file: a line without a delimiter is a
    [ParsingError] raised once the whole text has been read. *)
Definition config_read_text (text : pystr) : result config :=
  st ← read_lines new_reader (split_lines [] text);
  if rd_error st then Raise ConfigParserError
  else Ok (Config (join_values (rd_defaults st))
             (map (fun sd => (sd.1, join_values sd.2)) (rd_sections st))).

(** [BasicInterpolation.before_get]: [%%] stands for a percent sign,
    [%(name)s] for the value of option [name], itself interpolated, at
    most ten levels deep. *)
Fixpoint interpolate_some (depth : nat) (lookup : pystr -> option pystr)
    (rest : pystr) : result pystr :=
  match depth with
  | O => Raise ConfigParserError
  | S d =>
      (fix loop (fuel : nat) (rest : pystr) : result pystr :=
         match fuel with
         | O => Ok []
         | S f =>
             match rest with
             | [] => Ok []
             | c :: r =>
                 if (c =? 37)%N then
                   match r with
                   | c2 :: r2 =>
                       if (c2 =? 37)%N then cons 37%N <$> loop f r2
                       else if (c2 =? 40)%N then
                         match match_keycre rest with
                         | None => Raise ConfigParserError
                         | Some (var, r3) =>
                             match lookup (optionxform var) with
                             | None => Raise ConfigParserError
                             | Some v =>
                                 v' ← (if existsb (N.eqb 37) v
                                       then interpolate_some d lookup v else Ok v);
                                 tail ← loop f r3;
                                 Ok (v' ++ tail)
                             end
                         end
                       else Raise ConfigParserError
                   | [] => Raise ConfigParserError
                   end
                 else cons c <$> loop f r
             end
         end) (length rest) rest
  end.

(** [config.sections()] *)
Definition config_sections (c : config) : list pystr := dict_keys (cfg_sections c).

(** [config[section].items()]: the options of the section followed by
    those of [DEFAULT], each value interpolated. *)
Definition section_items (c : config) (section : pystr)
    : result (list (pystr * pystr)) :=
  match dict_get section (cfg_sections c) with
  | None => Raise (KeyError section)
  | Some d =>
      let lookup k :=
        match dict_get k d with
        | Some v => Some v
        | None => dict_get k (cfg_defaults c)
        end in
      mapM (fun k =>
              match lookup k with
              | Some raw => v ← interpolate_some 10 lookup raw; Ok (k, v)
              | None => Raise (KeyError k)
              end)
           (dict_keys (dict_update d (cfg_defaults c)))
  end.

(** [config.read(path)]: a file that cannot be opened is skipped. *)
Definition config_read (file : string) : Py config := fun w =>
  match w_files w !! file with
  | None => (Ok new_config, w)
  | Some text => (config_read_text text, w)
  end.

(** The two loops of [read_ini]: every item of every section is stored
    in one dictionary. *)
Fixpoint flatten_sections (c : config) (sections : list pystr)
    (data : dict pystr) : result (dict pystr) :=
  match sections with
  | [] => Ok data
  | s :: rest =>
      items ← section_items c s;
      flatten_sections c rest (dict_update data items)
  end.

(** The returned object is the dictionary, or [None] after an error was
    reported. *)
Definition read_ini : Py (option (dict pystr)) :=
  try_except
    (config ← config_read ini_file;
     data ← lift (flatten_sections config (config_sections config) []);
     mret (Some data))
    (fun e => print (ExnLine (str "Error reading INI: ") e);; mret None).

(** ** CSV codec: the [csv] module *)

(** A value handed to the writer. *)
Inductive cell :=
| CStr (s : pystr)
| CFloat (x : pyfloat).

(** The text of a field: a string as it is, a number through [str]. *)
Definition cell_text (c : cell) : pystr :=
  match c with
  | CStr s => s
  | CFloat x => float_repr x
  end.

(** Minimal quoting of the [excel] dialect: a field holding the
    delimiter, the quote character or a character of the line terminator
    is enclosed in quotes, with every quote doubled. *)
Definition needs_quotes (s : pystr) : bool :=
  existsb (fun c => (c =? 44) || (c =? 34) || (c =? 13) || (c =? 10))%N s.

Definition csv_field (s : pystr) : pystr :=
  if needs_quotes s
  then [34%N] ++ concat (map (fun c => if (c =? 34)%N then [34; 34]%N else [c]) s)
         ++ [34%N]
  else s.

(** [writer.writerow(fields)]; a row made of one empty field is written
    as a pair of quotes. *)
Definition csv_writerow (fields : list pystr) : pystr :=
  match fields with
  | [[]] => [34; 34; 13; 10]%N
  | _ => join [44%N] (map csv_field fields) ++ [13; 10]%N
  end.

(** [DictWriter._dict_to_list]: a key outside [fieldnames] is a
    [ValueError]; a missing key gives the empty [restval]. *)
Definition dict_to_list (fieldnames : list pystr) (rowdict : dict cell)
    : result (list pystr) :=
  if forallb (fun k => bool_decide (k ∈ fieldnames)) (dict_keys rowdict)
  then Ok (map (fun k => from_option cell_text [] (dict_get k rowdict)) fieldnames)
  else Raise ValueError.

Definition DictWriter_writerow (fieldnames : list pystr) (rowdict : dict cell)
    : result pystr :=
  csv_writerow <$> dict_to_list fieldnames rowdict.

(** [writeheader] writes [dict(zip(fieldnames, fieldnames))]. *)
Definition DictWriter_writeheader (fieldnames : list pystr) : result pystr :=
  DictWriter_writerow fieldnames
    (dict_of_pairs (map (fun k => (k, CStr k)) fieldnames)).

Definition fieldnames : list pystr := [
  str "company_name"; str "registration_number"; str "company_type";
  str "street_address"; str "suburb"; str "province"; str "postal_code";
  str "country"; str "email"; str "phone"; str "whatsapp"; str "website";
  str "account_name"; str "bank"; str "branch_code"; str "account_number";
  str "account_type"; str "vat_number"; str "tax_reference";
  str "default_tax_rate"; str "industry"; str "established_year";
  str "description"
].

(** The dictionary passed to [writer.writerow] by [write_csv]. *)
Definition csv_row (data : CompanyData) : dict cell := [
  (str "company_name", CStr (name data));
  (str "registration_number", CStr (registration_number data));
  (str "company_type", CStr (type data));
  (str "street_address", CStr (street data));
  (str "suburb", CStr (suburb data));
  (str "province", CStr (province data));
  (str "postal_code", CStr (postal_code data));
  (str "country", CStr (country data));
  (str "email", CStr (email data));
  (str "phone", CStr (phone data));
  (str "whatsapp", CStr (whatsapp data));
  (str "website", CStr (website data));
  (str "account_name", CStr (account_name data));
  (str "bank", CStr (bank data));
  (str "branch_code", CStr (branch_code data));
  (str "account_number", CStr (account_number data));
  (str "account_type", CStr (account_type data));
  (str "vat_number", CStr (vat_number data));
  (str "tax_reference", CStr (tax_reference data));
  (str "default_tax_rate", CFloat (default_tax_rate data));
  (str "industry", CStr (industry data));
  (str "established_year", CStr (established_year data));
  (str "description", CStr (description data))
].

Definition csv_file : string := "company_details.csv".

(** The two rows are written to the file one after the other. *)
Definition csv_text (data : CompanyData) : result pystr :=
  header ← DictWriter_writeheader fieldnames;
  row ← DictWriter_writerow fieldnames (csv_row data);
  Ok (header ++ row).

Definition write_csv (data : option CompanyData) : Py unit :=
  data ← data_or_self data;
  text ← lift (csv_text data);
  open_write csv_file text.

(** ** Text codec *)

Definition text_file : string := "COMPANY DETAILS".

Definition nl : pystr := [10%N].

(** The f-string of [write_text]. *)
Definition text_content (data : CompanyData) : pystr :=
  str "Company Name" ++ nl ++
  str "    " ++ name data ++ nl ++
  nl ++
  str "Registration Number" ++ nl ++
  str "    " ++ registration_number data ++ nl ++
  nl ++
  str "Company Type" ++ nl ++
  str "    " ++ type data ++ nl ++
  nl ++
  str "Address" ++ nl ++
  str "    " ++ street data ++ nl ++
  str "    " ++ suburb data ++ nl ++
  str "    " ++ province data ++ nl ++
  str "    " ++ postal_code data ++ nl ++
  str "    " ++ country data ++ nl ++
  nl ++
  str "Contact Details" ++ nl ++
  str "    Email: " ++ email data ++ nl ++
  str "    Phone: " ++ phone data ++ nl ++
  str "    WhatsApp: " ++ whatsapp data ++ nl ++
  nl ++
  str "Banking Details" ++ nl ++
  str "    Account Name: " ++ account_name data ++ nl ++
  str "    Bank: " ++ bank data ++ nl ++
  str "    Branch Code: " ++ branch_code data ++ nl ++
  str "    Account Number: " ++ account_number data ++ nl ++
  str "    Account Type: " ++ account_type data ++ nl ++
  nl ++
  str "Tax Information" ++ nl ++
  str "    VAT Number: " ++ str_or (vat_number data) (str "[To be filled]") ++ nl ++
  str "    Tax Reference: " ++ str_or (tax_reference data) (str "[To be filled]") ++ nl ++
  str "    Default Tax Rate: " ++ float_repr (default_tax_rate data) ++ str "%" ++ nl ++
  nl ++
  str "Business Information" ++ nl ++
  str "    Industry: " ++ industry data ++ nl ++
  str "    Established: " ++ established_year data ++ nl ++
  str "    Description: " ++ description data.

Definition write_text (data : option CompanyData) : Py unit :=
  data ← data_or_self data;
  open_write text_file (text_content data).

Definition update_all_formats (data : option CompanyData) : Py unit :=
  data ← data_or_self data;
  print (Line (str "Updating all file formats..."));;
  write_json (Some data);;
  print (Line (10003%N :: str " JSON file updated"));;
  write_ini (Some data);;
  print (Line (10003%N :: str " INI file updated"));;
  write_csv (Some data);;
  print (Line (10003%N :: str " CSV file updated"));;
  write_text (Some data);;
  print (Line (10003%N :: str " Text file updated"));;
  print (Line (str "All formats updated successfully!")).

(** ** The console editor: tax information *)

(** The last four statements of [edit_tax]: an empty answer keeps the
    rate silently, an answer [float] refuses keeps it with a message. *)
Definition edit_tax_rate : Py unit :=
  d ← get_company_data;
  tax_rate ← input (str "Default Tax Rate [" ++ float_repr (default_tax_rate d) ++ str "]: ");
  if truthy tax_rate then
    try_except
      (match float_of_str tax_rate with
       | Some x =>
           d ← get_company_data;
           put_company_data (set_default_tax_rate x d)
       | None => raise ValueError
       end)
      (fun e =>
         match e with
         | ValueError => print (Line (str "Invalid tax rate, keeping current value"))
         | _ => raise e
         end)
  else mret ().

Definition edit_tax : Py unit :=
  print (Line (str "\n--- Tax Information ---"));;
  d ← get_company_data;
  v ← input (str "VAT Number [" ++ vat_number d ++ str "]: ");
  d ← get_company_data;
  put_company_data (set_vat_number (str_or v (vat_number d)) d);;
  d ← get_company_data;
  v ← input (str "Tax Reference [" ++ tax_reference d ++ str "]: ");
  d ← get_company_data;
  put_company_data (set_tax_reference (str_or v (tax_reference d)) d);;
  edit_tax_rate.

(** ** The command line: [--read FORMAT] *)

Inductive format := Fjson | Fini | Fcsv | Ftxt.

(** [data[key]] on the dictionary returned by [read_ini]. *)
Definition lookup_item (d : dict pystr) (key : string) : Py pystr :=
  match dict_get (str key) d with
  | Some v => mret v
  | None => raise (KeyError (str key))
  end.

Definition display_data (d : dict pystr) : Py unit :=
  v_name ← lookup_item d "name";
  print (Line (str "Company: " ++ v_name));;
  v_reg ← lookup_item d "registration_number";
  print (Line (str "Registration: " ++ v_reg));;
  v_street ← lookup_item d "street";
  v_suburb ← lookup_item d "suburb";
  v_province ← lookup_item d "province";
  v_postal ← lookup_item d "postal_code";
  print (Line (str "Address: " ++ v_street ++ str ", " ++ v_suburb ++ str ", "
                  ++ v_province ++ str " " ++ v_postal));;
  v_email ← lookup_item d "email";
  v_phone ← lookup_item d "phone";
  v_whatsapp ← lookup_item d "whatsapp";
  print (Line (str "Contact: " ++ v_email ++ str " | " ++ v_phone
                  ++ str " | WhatsApp: " ++ v_whatsapp));;
  v_bank ← lookup_item d "bank";
  v_account ← lookup_item d "account_number";
  print (Line (str "Bank: " ++ v_bank ++ str " - " ++ v_account)).

(** Python's truth value of a decoded object. *)
Definition value_truthy (v : value) : bool :=
  match v with
  | VNone => false
  | VBool b => b
  | VInt z => negb (z =? 0)%Z
  | VFloat x => match x with S754_zero _ => false | _ => true end
  | VStr s => truthy s
  | VList l => match l with [] => false | _ => true end
  | VDict d => match d with [] => false | _ => true end
  end.

(** [main()] when [--read FORMAT] is given: the manager is built with
    its default record, then the branch of the format runs.  There is a
    branch for [json] and one for [ini]; [csv] and [txt] have none. *)
Definition main (read : format) : Py unit :=
  put_company_data company_data;;
  match read with
  | Fjson =>
      data ← read_json;
      if value_truthy data then print (Line (dumps true data)) else mret ()
  | Fini =>
      data ← read_ini;
      match data with
      | Some (_ :: _ as d) => display_data d
      | _ => mret ()
      end
  | Fcsv | Ftxt => mret ()
  end.

(** * Vocabulary of the statements *)

(** [p] occurs in [s]. *)
Definition substring (p s : pystr) : Prop := ∃ pre post, s = pre ++ p ++ post.

(** The content of file [f] once [m] has run from [w]. *)
Definition file_after {A} (m : Py A) (w : world) (f : string) : option pystr :=
  w_files (m w).2 !! f.

(** The outcome of [m] run from [w]. *)
Definition outcome {A} (m : Py A) (w : world) : result A := (m w).1.

(** The lines [m] writes to the console when run from [w]. *)
Definition printed {A} (m : Py A) (w : world) : list line :=
  drop (length (w_stdout w)) (w_stdout (m w).2).

(** The values of the data row in the order of the columns, as the
    specification lists them. *)
Definition csv_values (data : CompanyData) : list pystr := [
  name data; registration_number data; type data; street data; suburb data;
  province data; postal_code data; country data; email data; phone data;
  whatsapp data; website data; account_name data; bank data;
  branch_code data; account_number data; account_type data;
  vat_number data; tax_reference data; float_repr (default_tax_rate data);
  industry data; established_year data; description data
].

(** The two fields of the text export that may be left empty. *)
Inductive tax_field := VatNumber | TaxReference.

Definition tax_field_value (f : tax_field) (data : CompanyData) : pystr :=
  match f with
  | VatNumber => vat_number data
  | TaxReference => tax_reference data
  end.

Definition tax_field_label (f : tax_field) : pystr :=
  match f with
  | VatNumber => str "VAT Number: "
  | TaxReference => str "Tax Reference: "
  end.

Definition empty_world : world := World company_data ∅ [] [].

(** Unfolds a run of the interpreter down to its primitive steps. *)
Ltac py_unfold :=
  unfold outcome, file_after, printed;
  repeat progress
    (unfold mbind, Py_bind, mret, Py_ret, lift, raise, try_except, data_or_self,
       open_write, open_read, print, input, get_company_data, put_company_data;
     cbv beta iota zeta);
  cbn [fst snd w_files w_stdout w_stdin w_company_data].

Ltac py_step :=
  cbv beta iota zeta; cbn [fst snd w_files w_stdout w_stdin w_company_data].

Definition invalid_tax_rate : line :=
  Line (str "Invalid tax rate, keeping current value").

Definition tax_rate_prompt (data : CompanyData) : line :=
  Prompt (str "Default Tax Rate [" ++ float_repr (default_tax_rate data) ++ str "]: ").

(** The document has a top-level ["company"] key. *)
Definition has_company (doc : value) : Prop :=
  ∃ d v, doc = VDict d ∧ dict_get (str "company") d = Some v.

(** [read_json] reported an error of format (not a missing file). *)
Definition json_error_reported (w : world) : Prop :=
  ∃ e, printed read_json w = [ExnLine (str "Error reading JSON: ") e].

(** The items of every section, in the order of the sections. *)
Definition all_items (c : config) : result (list (list (pystr * pystr))) :=
  mapM (section_items c) (config_sections c).

Definition ini_sample : pystr := str "[company]" ++ nl ++ str "name = X" ++ nl.

(** The values [write_ini] stores, in the order of its assignments. *)
Definition ini_values (data : CompanyData) : list pystr := [
  name data; registration_number data; type data;
  street data; suburb data; province data; postal_code data; country data;
  full_address data;
  email data; phone data; whatsapp data; website data;
  account_name data; bank data; branch_code data; account_number data;
  account_type data; swift_code data;
  vat_number data; tax_reference data; float_repr (default_tax_rate data);
  industry data; established_year data; description data
].

(** The parser accepts the value: it is empty or [before_set] lets it
    through. *)
Definition interpolation_ok (v : pystr) : bool :=
  match (if truthy v then before_set v else Ok v) with
  | Ok _ => true
  | Raise _ => false
  end.

Definition ini_accepts (data : CompanyData) : bool :=
  forallb interpolation_ok (ini_values data).

(** One section of an INI file: the header line, one line
    [key = value] per option, a line break inside a value followed by a
    tab, and an empty line. *)
Definition ini_section (title : string) (items : list (string * pystr)) : pystr :=
  str "[" ++ str title ++ str "]" ++ nl
    ++ concat (map (fun kv => str kv.1 ++ str " = " ++ replace_newline kv.2 ++ nl) items)
    ++ nl.

(** The INI file of a record: the six sections in the order of the data
    model, each with its fields in that order. *)
Definition ini_expected (data : CompanyData) : pystr :=
  concat [
    ini_section "company" [
      ("name", name data);
      ("registration_number", registration_number data);
      ("type", type data)];
    ini_section "address" [
      ("street", street data);
      ("suburb", suburb data);
      ("province", province data);
      ("postal_code", postal_code data);
      ("country", country data);
      ("full_address", full_address data)];
    ini_section "contact" [
      ("email", email data);
      ("phone", phone data);
      ("whatsapp", whatsapp data);
      ("website", website data)];
    ini_section "banking" [
      ("account_name", account_name data);
      ("bank", bank data);
      ("branch_code", branch_code data);
      ("account_number", account_number data);
      ("account_type", account_type data);
      ("swift_code", swift_code data)];
    ini_section "tax" [
      ("vat_number", vat_number data);
      ("tax_reference", tax_reference data);
      ("default_tax_rate", float_repr (default_tax_rate data))];
    ini_section "business" [
      ("industry", industry data);
      ("established_year", established_year data);
      ("description", description data)]
  ].

(** The parser state [write_ini] builds when every value is accepted. *)
Definition ini_config (data : CompanyData) : config :=
  Config [] [
    (str "company", [
      (str "name", name data);
      (str "registration_number", registration_number data);
      (str "type", type data)]);
    (str "address", [
      (str "street", street data);
      (str "suburb", suburb data);
      (str "province", province data);
      (str "postal_code", postal_code data);
      (str "country", country data);
      (str "full_address", full_address data)]);
    (str "contact", [
      (str "email", email data);
      (str "phone", phone data);
      (str "whatsapp", whatsapp data);
      (str "website", website data)]);
    (str "banking", [
      (str "account_name", account_name data);
      (str "bank", bank data);
      (str "branch_code", branch_code data);
      (str "account_number", account_number data);
      (str "account_type", account_type data);
      (str "swift_code", swift_code data)]);
    (str "tax", [
      (str "vat_number", vat_number data);
      (str "tax_reference", tax_reference data);
      (str "default_tax_rate", float_repr (default_tax_rate data))]);
    (str "business", [
      (str "industry", industry data);
      (str "established_year", established_year data);
      (str "description", description data)])
  ].

(** The option names as [read_dict] and [set] store them. *)
Definition stored_keys (keys : list (pystr * pystr)) : list (pystr * pystr) :=
  map (fun kv => (optionxform (optionxform kv.1), kv.2)) keys.

(** What follows a value inside a printed document: nothing, a line
    break or a comma. *)
Definition safe_rest (rest : pystr) : Prop :=
  match rest with
  | [] => True
  | c :: _ => c = 10%N ∨ c = 44%N
  end.

(** The text the encoder writes for [x] is read back as [x] by the
    number pattern of the decoder (Python's guarantee that [repr] of a
    float round-trips through [float]). *)
Definition json_float_ok (x : pyfloat) : bool :=
  match x with
  | S754_nan | S754_infinity _ => true
  | _ =>
      match match_number (float_repr x) with
      | Some (VFloat y, []) => bool_decide (y = x)
      | _ => false
      end
  end.

(** The number of values of a document, with one more for each member
    of an object or element of an array: the fuel its decoding needs. *)
Fixpoint vsize (v : value) : nat :=
  match v with
  | VDict d => S (sum_list (map (fun kv => S (vsize kv.2)) d))
  | VList l => S (sum_list (map (fun x => S (vsize x)) l))
  | _ => 1
  end.

(** The documents [write_json] builds: strings, floats the decoder reads
    back, and objects with distinct keys. *)
#[warnings="-register-all"]
Inductive printable : value → Prop :=
| printable_str (s : pystr) : printable (VStr s)
| printable_float (x : pyfloat) : json_float_ok x = true → printable (VFloat x)
| printable_dict (d : list (pystr * value)) :
    NoDup d.*1 → Forall (fun kv => printable kv.2) d → printable (VDict d).

(** The text of one member of an object. *)
Definition member_text (lvl : nat) (kv : pystr * value) : pystr :=
  encode_basestring false kv.1 ++ str ": " ++ dumps_at false (S lvl) kv.2.

(** The text of the members of an object after the opening quote of the
    first key, up to the closing brace. *)
Definition members_tail (lvl : nat) (k : pystr) (v : value)
    (d : list (pystr * value)) (rest : pystr) : pystr :=
  concat (map escape_char k) ++ 34%N :: str ": " ++ dumps_at false (S lvl) v
    ++ concat (map (app (44%N :: newline_indent (S lvl))) (map (member_text lvl) d))
    ++ newline_indent lvl ++ 125%N :: rest.

(** [doc[k1][k2]...] on a decoded document. *)
Fixpoint lookup_path (doc : value) (path : list string) : result value :=
  match path with
  | [] => Ok doc
  | k :: rest => v ← getitem doc (str k); lookup_path v rest
  end.

(** Where each field of the record is found in the decoded document. *)
Definition nested_fields (data : CompanyData) : list (list string * value) := [
  (["name"], VStr (name data));
  (["registration_number"], VStr (registration_number data));
  (["type"], VStr (type data));
  (["address"; "street"], VStr (street data));
  (["address"; "suburb"], VStr (suburb data));
  (["address"; "province"], VStr (province data));
  (["address"; "postal_code"], VStr (postal_code data));
  (["address"; "country"], VStr (country data));
  (["contact"; "email"], VStr (email data));
  (["contact"; "phone"], VStr (phone data));
  (["contact"; "whatsapp"], VStr (whatsapp data));
  (["contact"; "website"], VStr (website data));
  (["banking"; "account_name"], VStr (account_name data));
  (["banking"; "bank"], VStr (bank data));
  (["banking"; "branch_code"], VStr (branch_code data));
  (["banking"; "account_number"], VStr (account_number data));
  (["banking"; "account_type"], VStr (account_type data));
  (["banking"; "swift_code"], VStr (swift_code data));
  (["tax"; "vat_number"], VStr (vat_number data));
  (["tax"; "tax_reference"], VStr (tax_reference data));
  (["tax"; "default_tax_rate"], VFloat (default_tax_rate data));
  (["business"; "industry"], VStr (industry data));
  (["business"; "established_year"], VStr (established_year data));
  (["business"; "description"], VStr (description data))
].

(** A record with the address of the example and a percent sign in its
    description. *)
Definition percent_record : CompanyData :=
  set_description (str "100% owned") company_data.

(** The member ["full_address": "22 Sloane Street, Bryanston, GAUTENG 1619"]
    of a JSON text and the line of an INI text with the same value. *)
Definition json_full_address_member : pystr :=
  [34%N] ++ str "full_address" ++ [34%N] ++ str ": " ++ [34%N]
    ++ str "22 Sloane Street, Bryanston, GAUTENG 1619" ++ [34%N].
Definition ini_full_address_line : pystr :=
  str "full_address = 22 Sloane Street, Bryanston, GAUTENG 1619" ++ nl.

(** * Properties *)

(** ** CSV export *)

Lemma csv_header_text :
  DictWriter_writeheader fieldnames = Ok (csv_writerow fieldnames).
Proof. vm_compute. reflexivity. Qed.

Lemma csv_row_text (data : CompanyData) :
  DictWriter_writerow fieldnames (csv_row data) = Ok (csv_writerow (csv_values data)).
Proof. reflexivity. Qed.


(** C10: the column list has no [swift_code] and the export does not
    depend on that field: two records that differ in [swift_code] alone
    give the same row values, the same file and the same outcome. *)
Theorem write_csv_ignores_swift_code (data : CompanyData) (v : pystr) (w : world) :
  bool_decide (str "swift_code" ∈ fieldnames) = false
  ∧ csv_values (set_swift_code v data) = csv_values data
  ∧ write_csv (Some (set_swift_code v data)) w = write_csv (Some data) w.
Proof.
  split; [vm_compute; reflexivity|].
  split; reflexivity.
Qed.

(** ** Text export *)

Lemma substring_skip (x p t : pystr) : substring p t → substring p (x ++ t).
Proof.
  intros (pre & post & ->). exists (x ++ pre), post. by rewrite app_assoc.
Qed.

(** A needle made of the end of the first segment and the whole of the
    second occurs in the text. *)
Lemma substring_at (a b c d : pystr) : substring (b ++ c) ((a ++ b) ++ c ++ d).
Proof. exists a, d. by rewrite <- !app_assoc. Qed.

(** C8: when [vat_number] or [tax_reference] is empty, the text export
    shows the label of the field followed by the placeholder
    [[To be filled]]. *)
Theorem write_text_placeholder (data : CompanyData) (f : tax_field) (w : world) :
  tax_field_value f data = [] →
  ∃ text, file_after (write_text (Some data)) w text_file = Some text
          ∧ substring (tax_field_label f ++ str "[To be filled]") text.
Proof.
  intros Hempty. exists (text_content data). split.
  - unfold write_text. py_unfold. apply lookup_insert_eq.
  - unfold text_content.
    destruct f; cbn [tax_field_value tax_field_label] in *; rewrite Hempty;
      change (str_or [] (str "[To be filled]")) with (str "[To be filled]").
    + repeat lazymatch goal with
             | |- substring _ (str "    VAT Number: " ++ _) => fail
             | |- substring _ (_ ++ _) => apply substring_skip
             end.
      apply (substring_at (str "    ")).
    + repeat lazymatch goal with
             | |- substring _ (str "    Tax Reference: " ++ _) => fail
             | |- substring _ (_ ++ _) => apply substring_skip
             end.
      apply (substring_at (str "    ")).
Qed.

Lemma write_text_placeholder_witness :
  ∃ text, file_after (write_text (Some company_data)) empty_world text_file = Some text
          ∧ substring (str "Tax Reference: [To be filled]") text.
Proof.
  exact (write_text_placeholder company_data TaxReference empty_world eq_refl).
Defined.

(** ** Reading a format that has no decoder *)

Lemma main_no_decoder (w : world) :
  main Fcsv w = (Ok (), World company_data (w_files w) (w_stdin w) (w_stdout w))
  ∧ main Ftxt w = (Ok (), World company_data (w_files w) (w_stdin w) (w_stdout w)).
Proof. split; reflexivity. Qed.



(** ** The tax rate of the console editor *)

Lemma edit_tax_rate_run (data : CompanyData) (files : gmap string pystr)
    (value : pystr) (rest : list pystr) (out : list line) :
  edit_tax_rate (World data files (value :: rest) out)
  = match value, float_of_str value with
    | [], _ => (Ok (), World data files rest (out ++ [tax_rate_prompt data]))
    | _ :: _, Some x =>
        (Ok (), World (set_default_tax_rate x data) files rest
                  (out ++ [tax_rate_prompt data]))
    | _ :: _, None =>
        (Ok (), World data files rest
                  (out ++ [tax_rate_prompt data] ++ [invalid_tax_rate]))
    end.
Proof.
  unfold edit_tax_rate. py_unfold.
  destruct value as [|c value]; [reflexivity|].
  cbn [truthy]. py_step.
  destruct (float_of_str (c :: value)); py_unfold; [reflexivity|].
  rewrite <- app_assoc. reflexivity.
Qed.

Lemma printed_app {A} (m : Py A) (w : world) (l : list line) :
  w_stdout (m w).2 = w_stdout w ++ l → printed m w = l.
Proof. unfold printed. intros ->. apply drop_app_length. Qed.



(** ** Dictionaries *)

Lemma dict_get_app {V} (k : pystr) (d1 d2 : dict V) :
  dict_get k (d1 ++ d2) = from_option Some (dict_get k d2) (dict_get k d1).
Proof.
  induction d1 as [|[k' v] d1 IH]; [reflexivity|].
  cbn [app dict_get]. destruct (decide (k = k')); [reflexivity | exact IH].
Qed.

Lemma dict_get_set {V} (k k' : pystr) (v : V) (d : dict V) :
  dict_get k (dict_set k' v d) = if decide (k = k') then Some v else dict_get k d.
Proof.
  induction d as [|[k0 v0] d IH]; cbn [dict_set dict_get].
  - reflexivity.
  - destruct (decide (k' = k0)) as [->|Hne]; cbn [dict_get].
    + destruct (decide (k = k0)); reflexivity.
    + rewrite IH. destruct (decide (k = k0)) as [->|]; [|reflexivity].
      destruct (decide (k0 = k')); [congruence | reflexivity].
Qed.

(** After an update, a key holds the value of its last pair, or its
    former value when no pair names it. *)
Lemma dict_get_update {V} (k : pystr) (l : list (pystr * V)) (d : dict V) :
  dict_get k (dict_update d l)
  = from_option Some (dict_get k d) (dict_get k (reverse l)).
Proof.
  revert d. induction l as [|[k' v] l IH]; intros d; [reflexivity|].
  unfold dict_update in *. cbn [foldl fst snd]. rewrite IH, reverse_cons, dict_get_app.
  rewrite dict_get_set. cbn [dict_get].
  destruct (dict_get k (reverse l)); [reflexivity|].
  cbn [from_option]. destruct (decide (k = k')); reflexivity.
Qed.

Lemma dict_get_None {V} (k : pystr) (d : dict V) :
  k ∉ d.*1 → dict_get k d = None.
Proof.
  induction d as [|[k' v] d IH]; [reflexivity|].
  cbn [fmap list_fmap fst dict_get]. intros Hk.
  apply not_elem_of_cons in Hk as [Hne Hk].
  destruct (decide (k = k')); [contradiction | auto].
Qed.

(** ** JSON decoding *)

Lemma getitem_company (doc : value) :
  match getitem doc (str "company") with
  | Ok v => has_company doc
  | Raise e => ¬ has_company doc ∧ e ≠ FileNotFoundError
  end.
Proof.
  destruct doc; cbn [getitem];
    try (split; [intros (d0 & v0 & [=] & _) | discriminate]).
  destruct (dict_get (str "company") d) as [v|] eqn:Hget.
  - exists d, v. auto.
  - split; [|discriminate]. intros (d0 & v0 & [= <-] & Hv). congruence.
Qed.

Lemma read_json_run (data : CompanyData) (files : gmap string pystr)
    (ins : list pystr) (out : list line) (text : pystr) :
  files !! json_file = Some text →
  read_json (World data files ins out)
  = match loads text ≫= (λ doc, Some (getitem doc (str "company"))) with
    | Some (Ok v) => (Ok v, World data files ins out)
    | Some (Raise e) =>
        (Ok VNone, World data files ins
                     (out ++ [ExnLine (str "Error reading JSON: ") e]))
    | None =>
        (Ok VNone, World data files ins
                     (out ++ [ExnLine (str "Error reading JSON: ") JSONDecodeError]))
    end.
Proof.
  intros Hfile. unfold read_json. py_unfold. rewrite Hfile. py_step.
  destruct (loads text) as [doc|]; cbn [mbind option_bind]; py_unfold.
  - pose proof (getitem_company doc) as Hc.
    destruct (getitem doc (str "company")) as [v|e]; [reflexivity|].
    destruct Hc as [_ Hne]. destruct e; try reflexivity. contradiction.
  - reflexivity.
Qed.



(** ** INI decoding *)

Lemma flatten_sections_spec (c : config) (sections : list pystr) (data : dict pystr) :
  flatten_sections c sections data
  = (λ items, dict_update data (concat items)) <$> mapM (section_items c) sections.
Proof.
  revert data. induction sections as [|s sections IH]; intros data; [reflexivity|].
  cbn [flatten_sections mapM].
  destruct (section_items c s) as [items|e]; cbn [mbind result_bind]; [|reflexivity].
  rewrite IH.
  destruct (mapM (section_items c) sections) as [rest|e];
    cbn [mbind result_bind fmap result_fmap mret result_ret concat]; [|reflexivity].
  unfold dict_update. rewrite foldl_app. reflexivity.
Qed.

Lemma read_ini_run (data : CompanyData) (files : gmap string pystr)
    (ins : list pystr) (out : list line) (text : pystr) :
  files !! ini_file = Some text →
  read_ini (World data files ins out)
  = match config_read_text text ≫= all_items with
    | Ok items => (Ok (Some (dict_of_pairs (concat items))), World data files ins out)
    | Raise e =>
        (Ok None, World data files ins
                    (out ++ [ExnLine (str "Error reading INI: ") e]))
    end.
Proof.
  intros Hfile. unfold read_ini, config_read. py_unfold. rewrite Hfile. py_step.
  unfold result_bind.
  destruct (config_read_text text) as [c|e]; py_step; [|reflexivity].
  rewrite flatten_sections_spec. unfold all_items, fmap, result_fmap.
  destruct (mapM (section_items c) (config_sections c)); reflexivity.
Qed.




(** ** INI encoding *)

Lemma dict_set_fresh {V} (k : pystr) (v : V) (d : dict V) :
  dict_get k d = None → dict_set k v d = d ++ [(k, v)].
Proof.
  induction d as [|[k' v'] d IH]; [reflexivity|]. cbn [dict_get dict_set app].
  destruct (decide (k = k')); [discriminate|]. intros H. by rewrite IH.
Qed.

Lemma dict_set_last {V} (k : pystr) (v v' : V) (d : dict V) :
  dict_get k d = None → dict_set k v (d ++ [(k, v')]) = d ++ [(k, v)].
Proof.
  induction d as [|[k0 v0] d IH]; cbn [dict_get dict_set app].
  - intros _. destruct (decide (k = k)); [reflexivity | contradiction].
  - destruct (decide (k = k0)); [discriminate|]. intros H. by rewrite IH.
Qed.

Lemma dict_get_fmap_None {V} (k : pystr) (d : dict V) :
  dict_get k d = None ↔ k ∉ d.*1.
Proof.
  induction d as [|[k' v] d IH]; cbn [dict_get fmap list_fmap fst].
  - split; [intros _; apply not_elem_of_nil | reflexivity].
  - rewrite not_elem_of_cons. destruct (decide (k = k')); [|tauto].
    split; [discriminate | intros [H _]; contradiction].
Qed.

(** A list of pairs with distinct keys is the dictionary it builds. *)
Lemma dict_update_fresh {V} (l d : dict V) :
  NoDup (d.*1 ++ l.*1) → dict_update d l = d ++ l.
Proof.
  revert d. induction l as [|[k v] l IH]; intros d Hnd.
  - by rewrite app_nil_r.
  - unfold dict_update in *. cbn [foldl fst snd].
    cbn [fmap list_fmap fst] in Hnd.
    assert (Hk : dict_get k d = None).
    { apply dict_get_fmap_None. apply NoDup_app in Hnd as (_ & Hd & _).
      intros Hin. apply (Hd k Hin). left. }
    rewrite (dict_set_fresh k v d Hk), IH.
    + by rewrite <- app_assoc.
    + rewrite fmap_app. cbn [fmap list_fmap fst]. by rewrite <- app_assoc.
Qed.

Lemma dict_of_pairs_NoDup {V} (l : dict V) : NoDup l.*1 → dict_of_pairs l = l.
Proof. intros H. unfold dict_of_pairs. by rewrite dict_update_fresh. Qed.

Lemma checked_value (v : pystr) :
  (if truthy v then before_set v else Ok v)
  = if interpolation_ok v then Ok v else Raise ValueError.
Proof.
  unfold interpolation_ok. destruct (truthy v); [|reflexivity].
  unfold before_set. by destruct (existsb _ _).
Qed.

Lemma config_set_section (sect opt v : pystr) (c : config) (d : dict pystr) :
  truthy sect = true → sect ≠ DEFAULTSECT →
  dict_get sect (cfg_sections c) = Some d →
  config_set sect opt v c
  = if interpolation_ok v
    then Ok (Config (cfg_defaults c)
               (dict_set sect (dict_set (optionxform opt) v d) (cfg_sections c)))
    else Raise ValueError.
Proof.
  intros Ht Hne Hd. unfold config_set. rewrite checked_value.
  destruct (interpolation_ok v); cbn [mbind result_bind]; [|reflexivity].
  rewrite Ht, Hd. cbn [negb orb]. by rewrite bool_decide_eq_false_2.
Qed.

Lemma dict_set_set {V} (k : pystr) (v v' : V) (d : dict V) :
  dict_set k v (dict_set k v' d) = dict_set k v d.
Proof.
  induction d as [|[k0 v0] d IH]; cbn [dict_set].
  - destruct (decide (k = k)); [reflexivity | contradiction].
  - destruct (decide (k = k0)) as [->|Hne]; cbn [dict_set].
    + destruct (decide (k0 = k0)); [reflexivity | contradiction].
    + destruct (decide (k = k0)); [contradiction | by rewrite IH].
Qed.

Lemma dict_get_set_eq {V} (k : pystr) (v : V) (d : dict V) :
  dict_get k (dict_set k v d) = Some v.
Proof. rewrite dict_get_set. destruct (decide (k = k)); [reflexivity | contradiction]. Qed.

Lemma dict_set_same {V} (k : pystr) (v : V) (d : dict V) :
  dict_get k d = Some v → dict_set k v d = d.
Proof.
  induction d as [|[k0 v0] d IH]; [discriminate|]. cbn [dict_get dict_set].
  destruct (decide (k = k0)) as [->|]; [by intros [= ->] | intros H; by rewrite IH].
Qed.

(** The option loop stores every pair, or stops with [ValueError] at the
    first value the interpolation syntax refuses. *)
Lemma read_dict_keys_section (sect : pystr) (keys : list (pystr * pystr)) :
  truthy sect = true → sect ≠ DEFAULTSECT →
  ∀ (added : list pystr) (c : config) (d : dict pystr),
    dict_get sect (cfg_sections c) = Some d →
    NoDup (added ++ (optionxform <$> keys.*1)) →
    read_dict_keys sect keys added c
    = if forallb interpolation_ok keys.*2
      then Ok (Config (cfg_defaults c)
                 (dict_set sect (dict_update d (stored_keys keys)) (cfg_sections c)))
      else Raise ValueError.
Proof.
  intros Ht Hne. induction keys as [|[k v] keys IH]; intros added c d Hd Hnd.
  - cbn [read_dict_keys fmap list_fmap forallb stored_keys map].
    unfold dict_update. cbn [foldl]. rewrite dict_set_same by done.
    by destruct c.
  - cbn [read_dict_keys fmap list_fmap fst snd forallb] in *.
    rewrite bool_decide_eq_false_2.
    2:{ apply NoDup_app in Hnd as (_ & Hd' & _). intros Hin. apply (Hd' _ Hin). left. }
    rewrite (config_set_section sect _ v c d Ht Hne Hd).
    destruct (interpolation_ok v); cbn [mbind result_bind andb]; [|reflexivity].
    erewrite IH.
    + cbn [cfg_defaults cfg_sections]. destruct (forallb _ _); [|reflexivity].
      rewrite dict_set_set. reflexivity.
    + cbn [cfg_sections]. apply dict_get_set_eq.
    + cbn [app]. apply NoDup_cons. apply NoDup_app in Hnd as (Ha & Hd' & Hk).
      apply NoDup_cons in Hk as [Hk1 Hk2]. split.
      * rewrite elem_of_app. intros [Hin|Hin]; [|contradiction].
        apply (Hd' _ Hin). left.
      * apply NoDup_app. split_and!; [done| |done].
        intros x Hx Hx'. apply (Hd' x Hx). by right.
Qed.

(** An assignment to a section the parser does not have yet appends
    the section with its options. *)
Lemma config_setitem_fresh (sect : pystr) (keys : list (pystr * pystr)) (c : config) :
  truthy sect = true → sect ≠ DEFAULTSECT →
  dict_get sect (cfg_sections c) = None →
  NoDup ((stored_keys keys).*1) →
  NoDup (optionxform <$> keys.*1) →
  config_setitem sect keys c
  = if forallb interpolation_ok keys.*2
    then Ok (Config (cfg_defaults c) (cfg_sections c ++ [(sect, stored_keys keys)]))
    else Raise ValueError.
Proof.
  intros Ht Hne Hfresh Hnd1 Hnd2. unfold config_setitem, read_dict, add_section.
  rewrite !bool_decide_eq_false_2 by done. rewrite !Hfresh.
  erewrite (read_dict_keys_section sect keys Ht Hne [] _ []).
  - cbn [cfg_defaults cfg_sections]. destruct (forallb _ _); [|reflexivity].
    rewrite dict_set_last by done. rewrite dict_update_fresh by done. reflexivity.
  - cbn [cfg_sections]. rewrite dict_get_app, Hfresh. cbn.
    destruct (decide (sect = sect)); [reflexivity | contradiction].
  - exact Hnd2.
Qed.

Ltac ini_side :=
  lazymatch goal with
  | |- NoDup _ => apply (bool_decide_eq_true_1 (NoDup _)); vm_compute; reflexivity
  | |- _ ≠ _ => let H := fresh in intros H; vm_compute in H; discriminate H
  | |- _ = _ => vm_compute; reflexivity
  end.

(** [write_ini] builds the six sections in the order of its
    assignments, or raises [ValueError] when a value is refused. *)
Lemma build_config_spec (data : CompanyData) :
  build_config data
  = if ini_accepts data then Ok (ini_config data) else Raise ValueError.
Proof.
  unfold build_config, ini_accepts, new_config.
  change (ini_values data) with
    ([name data; registration_number data; type data]
     ++ [street data; suburb data; province data; postal_code data; country data;
         full_address data]
     ++ [email data; phone data; whatsapp data; website data]
     ++ [account_name data; bank data; branch_code data; account_number data;
         account_type data; swift_code data]
     ++ [vat_number data; tax_reference data; float_repr (default_tax_rate data)]
     ++ [industry data; established_year data; description data]).
  rewrite !forallb_app.
  repeat (rewrite config_setitem_fresh by ini_side;
          cbn [fmap list_fmap snd];
          match goal with
          | |- context [forallb interpolation_ok ?l] =>
              destruct (forallb interpolation_ok l);
              cbn [mbind result_bind andb cfg_defaults cfg_sections app]
          end;
          [|reflexivity]).
  reflexivity.
Qed.

Lemma config_write_ini_config (data : CompanyData) :
  config_write (ini_config data) = ini_expected data.
Proof. reflexivity. Qed.

Lemma write_ini_run (data : CompanyData) (w : world) :
  write_ini (Some data) w
  = if ini_accepts data
    then (Ok (), World (w_company_data w) (<[ini_file := ini_expected data]> (w_files w))
                   (w_stdin w) (w_stdout w))
    else (Raise ValueError, w).
Proof.
  unfold write_ini. py_unfold. rewrite build_config_spec.
  destruct (ini_accepts data); py_step; [|reflexivity].
  by rewrite config_write_ini_config.
Qed.

(** C5: the INI export depends on the record alone.  When every value is
    accepted, the file holds the six sections [company], [address],
    [contact], [banking], [tax], [business] in that order, each with its
    keys in the order of the data model, whatever the file held before,
    and a second export leaves the same bytes; otherwise the export
    raises [ValueError] every time and writes nothing. *)
Theorem write_ini_deterministic (data : CompanyData) (w1 w2 : world) :
  outcome (write_ini (Some data)) w1 = outcome (write_ini (Some data)) w2
  ∧ (if ini_accepts data
     then file_after (write_ini (Some data)) w1 ini_file = Some (ini_expected data)
          ∧ file_after (write_ini (Some data)) w2 ini_file = Some (ini_expected data)
          ∧ file_after (write_ini (Some data);; write_ini (Some data)) w1 ini_file
            = Some (ini_expected data)
     else (write_ini (Some data) w1).2 = w1 ∧ (write_ini (Some data) w2).2 = w2)
  ∧ ini_accepts company_data = true.
Proof.
  assert (Hc : ini_accepts company_data = true) by (vm_compute; reflexivity).
  unfold outcome, file_after. unfold mbind, Py_bind.
  rewrite !write_ini_run.
  destruct (ini_accepts data) eqn:E; cbv beta iota; cbn [fst snd w_files].
  - rewrite write_ini_run, E. cbn [snd w_files].
    split_and!;
      [reflexivity | apply lookup_insert_eq | apply lookup_insert_eq
      | apply lookup_insert_eq | exact Hc].
  - split_and!; [reflexivity | reflexivity | reflexivity | exact Hc].
Qed.

(** ** JSON: numbers *)

Lemma safe_rest_not_digit (c : N) (rest : pystr) :
  safe_rest (c :: rest) →
  is_digit c = false ∧ (c =? 46)%N = false ∧ (c =? 101)%N = false
  ∧ (c =? 69)%N = false.
Proof. intros [-> | ->]; split_and!; reflexivity. Qed.

Lemma span_digits_safe (t rest : pystr) :
  safe_rest rest →
  span_digits (t ++ rest) = ((span_digits t).1, (span_digits t).2 ++ rest).
Proof.
  intros Hs. induction t as [|c t IH]; cbn [app span_digits].
  - destruct rest as [|c rest]; [reflexivity|]. cbn [span_digits fst snd app].
    destruct (safe_rest_not_digit c rest Hs) as (-> & _). reflexivity.
  - destruct (is_digit c); [|reflexivity].
    rewrite IH. by destruct (span_digits t).
Qed.

Lemma scan_int_safe (t rest m r : pystr) :
  safe_rest rest → scan_int t = Some (m, r) →
  scan_int (t ++ rest) = Some (m, r ++ rest).
Proof.
  intros Hs. unfold scan_int.
  assert (Hdigits : ∀ sg s1, 
    match s1 with
    | [] => None
    | c :: r0 =>
        if (c =? 48)%N then Some (sg ++ [c], r0)
        else if is_digit c
             then let '(ds, r') := span_digits r0 in Some (sg ++ c :: ds, r')
             else None
    end = Some (m, r) →
    match s1 ++ rest with
    | [] => None
    | c :: r0 =>
        if (c =? 48)%N then Some (sg ++ [c], r0)
        else if is_digit c
             then let '(ds, r') := span_digits r0 in Some (sg ++ c :: ds, r')
             else None
    end = Some (m, r ++ rest)).
  { intros sg [|c s1]; [discriminate|]. cbn [app].
    destruct (c =? 48)%N; [by intros [= <- <-]|].
    destruct (is_digit c); [|discriminate].
    rewrite span_digits_safe by done. destruct (span_digits s1) as [ds r']. 
    cbn [fst snd]. by intros [= <- <-]. }
  destruct t as [|c t]; [discriminate|]. cbn [app].
  destruct (c =? 45)%N; [apply Hdigits | apply (Hdigits [] (c :: t))].
Qed.

Lemma scan_frac_safe (s rest : pystr) :
  safe_rest rest →
  scan_frac (s ++ rest) = ((scan_frac s).1, (scan_frac s).2 ++ rest).
Proof.
  intros Hs. destruct s as [|d s]; cbn [app scan_frac].
  - destruct rest as [|c rest]; [reflexivity|]. cbn [scan_frac fst snd app].
    destruct (safe_rest_not_digit c rest Hs) as (_ & -> & _). reflexivity.
  - destruct (d =? 46)%N; [|reflexivity].
    rewrite span_digits_safe by done. destruct (span_digits s) as [[|x ds] r']; reflexivity.
Qed.

Lemma scan_exp_safe (s rest : pystr) :
  safe_rest rest →
  scan_exp (s ++ rest) = ((scan_exp s).1, (scan_exp s).2 ++ rest).
Proof.
  intros Hs. destruct s as [|e s]; cbn [app scan_exp].
  - destruct rest as [|c rest]; [reflexivity|]. cbn [scan_exp fst snd app].
    destruct (safe_rest_not_digit c rest Hs) as (_ & _ & -> & ->). reflexivity.
  - destruct ((e =? 101) || (e =? 69))%N; [|reflexivity].
    destruct s as [|g s]; cbn [app].
    + destruct rest as [|c rest]; [reflexivity|].
      pose proof (safe_rest_not_digit c rest Hs) as (Hd & _).
      assert (Hsign : ((c =? 45) || (c =? 43))%N = false)
        by (destruct Hs as [-> | ->]; reflexivity).
      rewrite Hsign. cbn [span_digits]. rewrite Hd. reflexivity.
    + destruct ((g =? 45) || (g =? 43))%N.
      * rewrite span_digits_safe by done.
        destruct (span_digits s) as [[|x ds] r']; reflexivity.
      * change (g :: s ++ rest) with ((g :: s) ++ rest).
        rewrite (span_digits_safe (g :: s)) by done.
        destruct (span_digits (g :: s)) as [[|x ds] r']; reflexivity.
Qed.

(** The number pattern reads the same number when a line break or a
    comma follows. *)
Lemma match_number_safe (t rest r : pystr) (v : value) :
  safe_rest rest → match_number t = Some (v, r) →
  match_number (t ++ rest) = Some (v, r ++ rest).
Proof.
  intros Hs. unfold match_number.
  destruct (scan_int t) as [[ip s2]|] eqn:Hint; [|discriminate].
  rewrite (scan_int_safe t rest ip s2 Hs Hint).
  rewrite scan_frac_safe by done. destruct (scan_frac s2) as [fp s3]. cbn [fst snd].
  rewrite scan_exp_safe by done. destruct (scan_exp s3) as [ep s4]. cbn [fst snd].
  destruct (fp ++ ep); [by intros [= <- <-]|].
  destruct (float_of_str _); [|discriminate].
  cbn [fmap option_fmap option_map]. by intros [= <- <-].
Qed.

Lemma digit_cases (c : N) :
  is_digit c = true →
  c ∈ [48; 49; 50; 51; 52; 53; 54; 55; 56; 57]%N.
Proof.
  unfold is_digit. intros H. apply andb_true_iff in H as [H1 H2].
  apply N.leb_le in H1, H2.
  assert (Hc : c = N.of_nat (N.to_nat c)) by lia. rewrite Hc.
  assert (Hn : (48 ≤ N.to_nat c ≤ 57)%nat) by lia.
  clear -Hn. generalize dependent (N.to_nat c). intros n Hn.
  do 48 (destruct n as [|n]; [lia|]).
  do 10 (destruct n as [|n];
           [apply (bool_decide_eq_true_1 (_ ∈ _)); vm_compute; reflexivity|]).
  lia.
Qed.

(** At a digit, or at a minus sign followed by a digit, the scanner
    applies the number pattern. *)
Lemma scan_once_number (n : nat) (s : pystr) (v : value) (r : pystr) :
  match_number s = Some (v, r) → scan_once (S n) s = Some (v, r).
Proof.
  intros Hm. pose proof Hm as Hm'. unfold match_number in Hm'.
  destruct (scan_int s) as [[ip s2]|] eqn:Hint; [clear Hm'|discriminate].
  unfold scan_int in Hint. destruct s as [|c s]; [discriminate|].
  destruct (c =? 45)%N eqn:Hc.
  - apply N.eqb_eq in Hc as ->. destruct s as [|c' s]; [discriminate|].
    assert (Hd : c' ∈ [48; 49; 50; 51; 52; 53; 54; 55; 56; 57]%N).
    { destruct (c' =? 48)%N eqn:H0; [apply N.eqb_eq in H0 as ->; left|].
      destruct (is_digit c') eqn:Hd; [by apply digit_cases | discriminate]. }
    clear Hint. cbn [scan_once]. 
    change (45 =? 34)%N with false. change (45 =? 123)%N with false.
    change (45 =? 91)%N with false. cbv beta iota.
    replace (match_constant (45%N :: c' :: s)) with (@None (value * pystr)); [exact Hm|].
    repeat (apply elem_of_cons in Hd as [-> | Hd]; [reflexivity|]).
    by apply elem_of_nil in Hd.
  - assert (Hd : c ∈ [48; 49; 50; 51; 52; 53; 54; 55; 56; 57]%N).
    { destruct (c =? 48)%N eqn:H0; [apply N.eqb_eq in H0 as ->; left|].
      destruct (is_digit c) eqn:Hd; [by apply digit_cases | discriminate]. }
    clear Hint Hc. revert Hm.
    repeat (apply elem_of_cons in Hd as [-> | Hd]; [by intros <-|]).
    by apply elem_of_nil in Hd.
Qed.

(** A float the decoder reads back is decoded from its encoding,
    whatever safe text follows. *)
Lemma scan_once_floatstr (n : nat) (x : pyfloat) (rest : pystr) :
  json_float_ok x = true → safe_rest rest →
  scan_once (S n) (floatstr x ++ rest) = Some (VFloat x, rest).
Proof.
  intros Hok Hs.
  assert (Hfin : match match_number (float_repr x) with
                 | Some (VFloat y, []) => bool_decide (y = x)
                 | _ => false
                 end = true →
                 scan_once (S n) (float_repr x ++ rest) = Some (VFloat x, rest)).
  { intros H. destruct (match_number (float_repr x)) as [[[] r]|] eqn:Hm; try discriminate.
    destruct r; [|discriminate]. apply bool_decide_eq_true_1 in H as ->.
    apply scan_once_number.
    by rewrite (match_number_safe _ rest [] (VFloat x) Hs Hm). }
  destruct x as [s|s| |s m e]; cbn [json_float_ok floatstr] in *.
  - by apply Hfin.
  - by destruct s.
  - reflexivity.
  - by apply Hfin.
Qed.

(** ** JSON: strings and white space *)

Lemma short_escape_None (c : N) :
  short_escape c = None → (c =? 34)%N = false ∧ (c =? 92)%N = false.
Proof.
  unfold short_escape. destruct (c =? 92)%N; [discriminate|].
  destruct (c =? 34)%N; [discriminate|]. done.
Qed.

Lemma small_cases (c : N) (P : N → Prop) :
  (c < 32)%N → Forall P (N.of_nat <$> seq 0 32) → P c.
Proof.
  intros Hc HP. rewrite Forall_forall in HP. apply HP.
  replace c with (N.of_nat (N.to_nat c)) by lia.
  apply list_elem_of_fmap_2. apply elem_of_seq. lia.
Qed.

(** The decoder undoes the escape of one character. *)
Lemma scanstring_escape_char (c : N) (tail : pystr) :
  scanstring (escape_char c ++ tail) = prod_map (cons c) id <$> scanstring tail.
Proof.
  unfold escape_char. destruct (short_escape c) as [e|] eqn:He.
  - unfold short_escape in He.
    repeat match type of He with
           | (if (c =? ?k)%N then _ else _) = _ =>
               destruct (N.eqb_spec c k) as [-> | _];
               [injection He as <-; reflexivity|]
           end.
    discriminate He.
  - destruct (short_escape_None c He) as [H34 H92].
    destruct (c <? 32)%N eqn:Hlt.
    + apply N.ltb_lt in Hlt. revert tail. pattern c.
      apply (small_cases c); [exact Hlt|].
      cbn [seq fmap list_fmap]. repeat (apply Forall_cons; split; [intros tail; reflexivity|]).
      apply Forall_nil_2.
    + cbn [app scanstring]. by rewrite H34, H92, Hlt.
Qed.

(** The decoder reads back the body of an encoded string up to its
    closing quote. *)
Lemma scanstring_escaped (s rest : pystr) :
  scanstring (concat (map escape_char s) ++ 34%N :: rest) = Some (s, rest).
Proof.
  induction s as [|c s IH]; [reflexivity|].
  cbn [map concat]. rewrite <- app_assoc, scanstring_escape_char, IH. reflexivity.
Qed.

Lemma skip_ws_indent (lvl : nat) (s : pystr) :
  skip_ws (newline_indent lvl ++ s) = skip_ws s.
Proof.
  unfold newline_indent. cbn [app skip_ws is_ws]. cbn.
  induction (lvl + (lvl + 0)) as [|n IH]; [reflexivity|]. exact IH.
Qed.

(** A text a value is decoded from does not start with white space. *)
Lemma skip_ws_scan (n : nat) (s : pystr) (res : value * pystr) :
  scan_once n s = Some res → skip_ws s = s.
Proof.
  destruct s as [|c s]; [reflexivity|]. cbn [skip_ws].
  destruct (is_ws c) eqn:Hws; [|reflexivity].
  destruct n as [|n]; [discriminate|].
  unfold is_ws in Hws.
  destruct (N.eqb_spec c 32) as [-> | _]; [discriminate|].
  destruct (N.eqb_spec c 9) as [-> | _]; [discriminate|].
  destruct (N.eqb_spec c 10) as [-> | _]; [discriminate|].
  destruct (N.eqb_spec c 13) as [-> | _]; [discriminate|].
  discriminate Hws.
Qed.

(** ** JSON: decoding an encoded document *)

Lemma dumps_at_dict (lvl : nat) (k : pystr) (v : value)
    (d : list (pystr * value)) (rest : pystr) :
  dumps_at false lvl (VDict ((k, v) :: d)) ++ rest
  = 123%N :: newline_indent (S lvl) ++ 34%N :: members_tail lvl k v d rest.
Proof.
  cbn [dumps_at map join]. unfold members_tail, member_text, encode_basestring.
  cbn [fst snd]. change (fun kv : pystr * value =>
      ([34%N] ++ concat (map escape_char kv.1) ++ [34%N]) ++ str ": "
        ++ dumps_at false (S lvl) kv.2)
    with (member_text lvl).
  repeat (rewrite <- ?app_assoc; cbn [app]). reflexivity.
Qed.

Lemma members_tail_cons (lvl : nat) (k : pystr) (v : value) (k2 : pystr) (v2 : value)
    (d : list (pystr * value)) (rest : pystr) :
  members_tail lvl k v ((k2, v2) :: d) rest
  = concat (map escape_char k) ++ 34%N :: str ": " ++ dumps_at false (S lvl) v
      ++ 44%N :: newline_indent (S lvl) ++ 34%N :: members_tail lvl k2 v2 d rest.
Proof.
  unfold members_tail, member_text, encode_basestring. cbn [map concat fst snd].
  repeat (rewrite <- ?app_assoc; cbn [app]). reflexivity.
Qed.

Lemma skip_ws_quote (s : pystr) : skip_ws (34%N :: s) = 34%N :: s.
Proof. reflexivity. Qed.
Lemma skip_ws_brace (s : pystr) : skip_ws (125%N :: s) = 125%N :: s.
Proof. reflexivity. Qed.
Lemma skip_ws_comma (s : pystr) : skip_ws (44%N :: s) = 44%N :: s.
Proof. reflexivity. Qed.
Lemma skip_ws_colon (s : pystr) : skip_ws (58%N :: s) = 58%N :: s.
Proof. reflexivity. Qed.
Lemma skip_ws_space (s : pystr) : skip_ws (32%N :: s) = skip_ws s.
Proof. reflexivity. Qed.

Lemma vsize_pos (v : value) : 1 ≤ vsize v.
Proof. destruct v; cbn [vsize]; lia. Qed.

(** Decoding the encoding of a printable document gives the document
    back, with fuel for its size; the same holds for the members of an
    object. *)
Lemma scan_dumps (n : nat) :
  (∀ v lvl rest, vsize v ≤ n → printable v → safe_rest rest →
     scan_once n (dumps_at false lvl v ++ rest) = Some (v, rest))
  ∧ (∀ k v d lvl rest,
       S (vsize v) + sum_list (map (fun kv => S (vsize kv.2)) d) ≤ n →
       printable v → Forall (fun kv => printable kv.2) d →
       parse_members n (members_tail lvl k v d rest) = Some ((k, v) :: d, rest)).
Proof.
  induction n as [|n [IHv IHm]].
  { split.
    - intros v lvl rest Hn. pose proof (vsize_pos v). lia.
    - intros. lia. }
  split.
  - intros v lvl rest Hn Hp Hs. destruct Hp as [s|x Hx|d Hnd Hall].
    + cbn [dumps_at]. unfold encode_basestring. rewrite <- !app_assoc.
      cbn [app scan_once N.eqb Pos.eqb].
      rewrite scanstring_escaped. reflexivity.
    + cbn [dumps_at]. by apply scan_once_floatstr.
    + destruct d as [|[k v] d]; [reflexivity|].
      rewrite dumps_at_dict. cbn [scan_once N.eqb Pos.eqb].
      rewrite skip_ws_indent, skip_ws_quote. cbn [N.eqb Pos.eqb].
      apply Forall_cons in Hall as [Hv Hall]. cbn [vsize map sum_list fst snd] in Hn.
      rewrite IHm by (cbn [snd] in *; unfold id in *; first [done | lia]).
      cbn [fmap option_fmap option_map prod_map fst snd id].
      by rewrite dict_of_pairs_NoDup.
  - intros k v d lvl rest Hn Hv Hall.
    assert (Hscan : ∀ rest', safe_rest rest' →
              scan_once n (dumps_at false (S lvl) v ++ rest') = Some (v, rest')).
    { intros rest' Hs'. apply IHv; [lia | done | done]. }
    assert (Hstart : ∀ tail,
              safe_rest tail →
              parse_members (S n)
                (concat (map escape_char k) ++ 34%N :: str ": "
                   ++ dumps_at false (S lvl) v ++ tail)
              = match skip_ws tail with
                | c2 :: r3 =>
                    if (c2 =? 125)%N then Some ([(k, v)], r3)
                    else if (c2 =? 44)%N then
                      match skip_ws r3 with
                      | c3 :: r4 =>
                          if (c3 =? 34)%N
                          then prod_map (cons (k, v)) id <$> parse_members n r4
                          else None
                      | [] => None
                      end
                    else None
                | [] => None
                end).
    { intros tail Hs'. cbn [parse_members]. rewrite scanstring_escaped.
      cbn [mbind option_bind]. change (str ": ") with [58; 32]%N. cbn [app].
      rewrite skip_ws_colon. cbn [N.eqb Pos.eqb]. rewrite skip_ws_space.
      rewrite (skip_ws_scan n _ _ (Hscan tail Hs')), (Hscan tail Hs').
      reflexivity. }
    destruct d as [|[k2 v2] d].
    + unfold members_tail. cbn [map concat app].
      rewrite Hstart by (left; reflexivity).
      rewrite skip_ws_indent, skip_ws_brace. reflexivity.
    + rewrite members_tail_cons, Hstart by (right; reflexivity).
      rewrite skip_ws_comma. cbn [N.eqb Pos.eqb].
      rewrite skip_ws_indent, skip_ws_quote. cbn [N.eqb Pos.eqb].
      apply Forall_cons in Hall as [Hv2 Hall]. cbn [map sum_list snd] in Hn.
      rewrite IHm by (cbn [snd] in *; unfold id in *; first [done | lia]).
      reflexivity.
Qed.

Lemma floatstr_length (x : pyfloat) :
  json_float_ok x = true → 1 ≤ length (floatstr x).
Proof.
  destruct x as [s|s| |s m e]; cbn [json_float_ok floatstr].
  - destruct (float_repr (S754_zero s)); [discriminate | cbn; lia].
  - destruct s; cbn; lia.
  - cbn; lia.
  - destruct (float_repr (S754_finite s m e)); [discriminate | cbn; lia].
Qed.

Lemma sum_list_map_cons {A} (f : A → nat) (x : A) (l : list A) :
  sum_list (map f (x :: l)) = f x + sum_list (map f l).
Proof. reflexivity. Qed.

Lemma sum_list_map_le {A} (f g : A → nat) (l : list A) :
  (∀ x, x ∈ l → f x ≤ g x) → sum_list (map f l) ≤ sum_list (map g l).
Proof.
  induction l as [|x l IH]; intros H; [done|]. rewrite !sum_list_map_cons.
  pose proof (H x ltac:(left)). 
  assert (sum_list (map f l) ≤ sum_list (map g l)) by (apply IH; intros; apply H; by right).
  lia.
Qed.

Lemma sum_list_map_elem {A} (f : A → nat) (x : A) (l : list A) :
  x ∈ l → f x ≤ sum_list (map f l).
Proof.
  induction l as [|y l IH]; intros H; [by apply elem_of_nil in H|].
  rewrite sum_list_map_cons. apply elem_of_cons in H as [-> | H]; [lia|].
  specialize (IH H). lia.
Qed.

Lemma vsize_dict_cons (k : pystr) (v : value) (d : list (pystr * value)) :
  vsize (VDict ((k, v) :: d))
  = S (S (vsize v) + sum_list (map (fun kv => S (vsize kv.2)) d)).
Proof. reflexivity. Qed.

Lemma members_tail_length (lvl : nat) (d : list (pystr * value)) :
  ∀ k v rest,
    length (dumps_at false (S lvl) v)
      + sum_list (map (fun kv => S (length (dumps_at false (S lvl) kv.2))) d)
    ≤ length (members_tail lvl k v d rest).
Proof.
  induction d as [|[k2 v2] d IH]; intros k v rest.
  - unfold members_tail. cbn [map concat]. 
    rewrite !length_app. cbn [length]. rewrite !length_app.
    change (sum_list []) with 0. lia.
  - rewrite members_tail_cons, sum_list_map_cons. cbn [snd].
    rewrite !length_app. cbn [length]. rewrite !length_app. cbn [length].
    rewrite !length_app. cbn [length].
    specialize (IH k2 v2 rest). lia.
Qed.

(** The text of a printable document is at least as long as the fuel
    its decoding needs. *)
Lemma vsize_le_length (n : nat) :
  ∀ v lvl, vsize v ≤ n → printable v → vsize v ≤ length (dumps_at false lvl v).
Proof.
  induction n as [|n IH]; intros v lvl Hn Hp.
  { pose proof (vsize_pos v). lia. }
  destruct Hp as [s|x Hx|d Hnd Hall].
  - cbn [dumps_at vsize]. unfold encode_basestring. rewrite !length_app. cbn. lia.
  - cbn [dumps_at vsize]. by apply floatstr_length.
  - destruct d as [|[k v] d]; [cbn; lia|].
    rewrite <- (app_nil_r (dumps_at _ _ _)), dumps_at_dict.
    cbn [length]. rewrite length_app. cbn [length].
    pose proof (members_tail_length lvl d k v []) as Hlen.
    rewrite vsize_dict_cons in *.
    apply Forall_cons in Hall as [Hv Hall]. cbn [snd] in Hv.
    assert (Hv' : vsize v ≤ length (dumps_at false (S lvl) v)) by (apply IH; [lia|done]).
    assert (Hd : sum_list (map (fun kv : pystr * value => S (vsize kv.2)) d)
                 ≤ sum_list (map (fun kv : pystr * value =>
                                    S (length (dumps_at false (S lvl) kv.2))) d)).
    { apply sum_list_map_le. intros kv Hkv.
      pose proof (sum_list_map_elem (fun kv : pystr * value => S (vsize kv.2)) kv d Hkv)
        as Hle. cbn beta in Hle.
      rewrite Forall_forall in Hall.
      assert (vsize kv.2 ≤ length (dumps_at false (S lvl) kv.2))
        by (apply IH; [lia | by apply Hall]).
      lia. }
    lia.
Qed.

(** Decoding the encoding of a printable document gives the document
    back. *)
Lemma loads_dumps (v : value) : printable v → loads (dumps false v) = Some v.
Proof.
  intros Hp. unfold loads, dumps.
  pose proof (vsize_le_length (vsize v) v 0 ltac:(done) Hp) as Hlen.
  pose proof (proj1 (scan_dumps (S (length (dumps_at false 0 v)))) v 0 []
                ltac:(lia) Hp I) as Hscan.
  rewrite app_nil_r in Hscan.
  rewrite (skip_ws_scan _ _ _ Hscan), Hscan. cbn [skip_ws].
  destruct (dumps_at false 0 v) as [|c t]; [reflexivity|].
  cbn [startswith]. destruct (N.eqb_spec 65279 c) as [<- | _]; [|reflexivity].
  discriminate Hscan.
Qed.

Lemma structured_data_printable (data : CompanyData) :
  json_float_ok (default_tax_rate data) = true → printable (structured_data data).
Proof.
  intros Hx. unfold structured_data, structured_company.
  repeat first
    [ apply printable_str
    | by apply printable_float
    | apply printable_dict;
        [apply (bool_decide_eq_true_1 (NoDup _)); vm_compute; reflexivity|]
    | apply Forall_cons; split; [cbn [snd]|]
    | apply Forall_nil_2 ].
Qed.

(** ** JSON round trip *)

Lemma write_json_run (data : CompanyData) (w : world) :
  write_json (Some data) w
  = (Ok (), World (w_company_data w)
              (<[json_file := dumps false (structured_data data)]> (w_files w))
              (w_stdin w) (w_stdout w)).
Proof. reflexivity. Qed.

Lemma read_json_after_write_json (data : CompanyData) (w : world) :
  json_float_ok (default_tax_rate data) = true →
  read_json (write_json (Some data) w).2
  = (Ok (structured_company data), (write_json (Some data) w).2).
Proof.
  intros Hx. rewrite write_json_run. cbn [snd].
  rewrite (read_json_run _ _ _ _ (dumps false (structured_data data)))
    by apply lookup_insert_eq.
  rewrite loads_dumps by by apply structured_data_printable.
  reflexivity.
Qed.




(** ** The full address in the exports *)

(** C7, at a record the INI export refuses: the record has the address
    of the example and a description with a percent sign.  The JSON
    export holds the full address; the INI export raises [ValueError]
    in [config['business'] = ...] and writes no file, so no INI output
    holds the address.  With the default description both exports hold
    it. *)
Theorem write_ini_refuses_percent :
  full_address percent_record = str "22 Sloane Street, Bryanston, GAUTENG 1619"
  ∧ outcome (write_json (Some percent_record)) empty_world = Ok ()
  ∧ contains json_full_address_member
      <$> file_after (write_json (Some percent_record)) empty_world json_file
    = Some true
  ∧ outcome (write_ini (Some percent_record)) empty_world = Raise ValueError
  ∧ file_after (write_ini (Some percent_record)) empty_world ini_file = None
  ∧ contains json_full_address_member
      <$> file_after (write_json (Some company_data)) empty_world json_file
    = Some true
  ∧ contains ini_full_address_line
      <$> file_after (write_ini (Some company_data)) empty_world ini_file
    = Some true.
Proof. vm_compute. split_and!; reflexivity. Qed.
